(** * tsfpga / Libero project-creation script generator

    Shallow embedding of [tsfpga/libero/tcl.py] (class [LiberoTcl]) and
    [tsfpga/libero/project.py] (class [LiberoProject]), with the parts of
    the Python run time they rely on: [str.split], [str.replace],
    [list.sort], [pathlib] names, and a file system that survives
    exceptions. *)

From Stdlib Require Import Ascii ZArith DecimalString.
From stdpp Require Import base option list strings gmap.

Local Open Scope Z_scope.
Local Open Scope nat_scope.

(** ** Exceptions and results *)

(** The Python exceptions the modelled code can raise.  The specification
    calls [ValueError] of [_create_tcl] "DirectoryExists", the [IndexError]
    of the part decomposition "MalformedPartIdentifier" and the
    [NotImplementedError] of [_add_constraints] "UnsupportedConstraintKind". *)
Inductive exn : Type :=
| ValueError (msg : string)
| IndexError (msg : string)
| NotImplementedError (msg : string)
| TypeError (msg : string)
| FileExistsError (msg : string)
| NotADirectoryError (msg : string)
| AttributeError (msg : string)
| OtherError (msg : string).

Inductive result (A : Type) : Type :=
| Ok (a : A)
| Raise (e : exn).
Arguments Ok {A} a.
Arguments Raise {A} e.

Definition rbind {A B} (r : result A) (k : A -> result B) : result B :=
  match r with
  | Ok a => k a
  | Raise e => Raise e
  end.

Declare Scope py_scope.
Delimit Scope py_scope with py.
Notation "'let*' x ':=' r 'in' k" := (rbind r (fun x => k))
  (at level 10, x pattern, r at level 100, k at level 200) : py_scope.
Local Open Scope py_scope.

(** A [for] loop that threads an accumulator and stops at the first
    exception. *)
Fixpoint for_each {A S} (body : S -> A -> result S) (l : list A) (acc : S)
  : result S :=
  match l with
  | [] => Ok acc
  | x :: l' => let* acc' := body acc x in for_each body l' acc'
  end.

Definition is_ok {A} (r : result A) : bool :=
  match r with Ok _ => true | Raise _ => false end.

(** ** Strings *)

Module Str.

(** [s.split(sep)] for a one-character separator: never empty, one more
    element than there are separators. *)
Fixpoint split (sep : ascii) (s : string) : list string :=
  match s with
  | EmptyString => [EmptyString]
  | String c s' =>
      if Ascii.eqb c sep then EmptyString :: split sep s'
      else match split sep s' with
           | [] => [String c EmptyString]
           | h :: t => String c h :: t
           end
  end.

(** [s.rfind(c)], with [None] for Python's [-1]. *)
Fixpoint rfind (c : ascii) (s : string) : option nat :=
  match s with
  | EmptyString => None
  | String a s' =>
      match rfind c s' with
      | Some i => Some (S i)
      | None => if Ascii.eqb a c then Some 0 else None
      end
  end.

(** [s.replace(old, new)] for a non-empty [old]: occurrences are found from
    the left and do not overlap.  [skip] counts the characters of the
    occurrence just replaced that are still to be dropped. *)
Fixpoint replace_from (old new : string) (skip : nat) (s : string) : string :=
  match s with
  | EmptyString => EmptyString
  | String c s' =>
      match skip with
      | S k => replace_from old new k s'
      | O =>
          if String.prefix old s
          then new +:+ replace_from old new (String.length old - 1) s'
          else String c (replace_from old new 0 s')
      end
  end.

(** With an empty [old], Python puts [new] before every character and at
    the end. *)
Fixpoint interleave (new s : string) : string :=
  match s with
  | EmptyString => new
  | String c s' => new +:+ String c (interleave new s')
  end.

Definition replace (old new s : string) : string :=
  match old with
  | EmptyString => interleave new s
  | String _ _ => replace_from old new 0 s
  end.

(** [sub in s]. *)
Fixpoint contains (sub s : string) : bool :=
  String.prefix sub s ||
  match s with
  | EmptyString => false
  | String _ s' => contains sub s'
  end.

(** [" ".join(l)] and friends. *)
Definition join (sep : string) (l : list string) : string :=
  String.concat sep l.

(** [str(n)] of an integer. *)
Definition of_Z (z : Z) : string := NilZero.string_of_int (Z.to_int z).

End Str.

(** [l[i]] for a non-negative literal index. *)
Definition getitem {A} (l : list A) (i : nat) : result A :=
  match l !! i with
  | Some x => Ok x
  | None => Raise (IndexError "list index out of range")
  end.

(** ** [list.sort(key=..., reverse=True)]

    Python's sort is stable, also with [reverse=True]: elements with equal
    keys keep their order.  It is modelled as an insertion sort in
    descending key order; an element goes in front of the first element
    whose key is not greater than its own. *)
Section Sort.
Context {A K : Type} (ltb : K -> K -> bool) (key : A -> K).

Fixpoint insert_reverse (x : A) (l : list A) : list A :=
  match l with
  | [] => [x]
  | y :: l' =>
      if ltb (key x) (key y) then y :: insert_reverse x l' else x :: l
  end.

Definition sort_reverse (l : list A) : list A :=
  foldr insert_reverse [] l.
End Sort.

(** Python orders [False < True]. *)
Definition bool_ltb (a b : bool) : bool := negb a && b.

(** ** Paths *)

(** A [pathlib.Path], absolute and normalised: its components below the
    root. *)
Definition Path : Type := list string.

Module PurePath.

(** [path.name]: the last component. *)
Definition name (p : Path) : string := List.last p EmptyString.

(** [path.parent]. *)
Definition parent (p : Path) : Path := removelast p.

(** [path / child]. *)
Definition joinpath (p : Path) (child : string) : Path := p ++ [child].

(** [str(path)]. *)
Definition str (p : Path) : string := "/" +:+ Str.join "/" p.

(** The position of the dot that starts the suffix: [i = name.rfind('.')]
    with [0 < i < len(name) - 1]. *)
Definition suffix_start (n : string) : option nat :=
  match Str.rfind "." n with
  | Some i =>
      if (0 <? i) && (i <? String.length n - 1) then Some i else None
  | None => None
  end.

(** [path.suffix]. *)
Definition suffix (p : Path) : string :=
  let n := name p in
  match suffix_start n with
  | Some i => String.substring i (String.length n - i) n
  | None => EmptyString
  end.

(** [path.stem]. *)
Definition stem (p : Path) : string :=
  let n := name p in
  match suffix_start n with
  | Some i => String.substring 0 i n
  | None => n
  end.

(** The components of a path string: empty components and ["."] are
    dropped, [".."] stays. *)
Definition parse (s : string) : list string :=
  List.filter (fun c => negb (String.eqb c "" || String.eqb c "."))
    (Str.split "/" s).

(** [path / s] for a string: a string that starts with a slash replaces the
    path. *)
Definition truediv (p : Path) (s : string) : Path :=
  if String.prefix "/" s then parse s else p ++ parse s.

(** Where a relative path leads from [start]: [".."] goes up, any other
    component goes down. *)
Definition follow (start : Path) (rel : list string) : Path :=
  fold_left
    (fun p c => if String.eqb c ".." then removelast p else p ++ [c])
    rel start.

End PurePath.

(** [os.path.relpath(path, start)] on absolute, normalised paths: one
    [".."] for every component of [start] below the common prefix, then
    the rest of [path]; ["."] when nothing is left. *)
Fixpoint relpath_list (path start : Path) : list string :=
  match path, start with
  | a :: path', b :: start' =>
      if String.eqb a b then relpath_list path' start'
      else replicate (length start) ".." ++ path
  | _, _ => replicate (length start) ".." ++ path
  end.

Definition relpath (path start : Path) : string :=
  match relpath_list path start with
  | [] => "."
  | l => Str.join "/" l
  end.

(** What the code takes from its installation and from the machine it runs
    on: the text of [template.tcl], which is read by [LiberoTcl.create] but
    is not among the sources, and [Path.resolve], which follows the
    symbolic links of the machine. *)
Class Platform : Type := {
  template_tcl : string;
  resolve : Path -> Path
}.

(** ** The data model *)

(** The value of a generic: a boolean, a number or a string.  The numbers
    are the integers; the text of a floating-point number is left out. *)
Inductive generic_value : Type :=
| GBool (b : bool)
| GInt (z : Z)
| GStr (s : string).

(** [f"{value}"]. *)
Definition format_value (v : generic_value) : string :=
  match v with
  | GBool true => "True"
  | GBool false => "False"
  | GInt z => Str.of_Z z
  | GStr s => s
  end.

(** A [dict] with string keys, in insertion order. *)
Definition dict (V : Type) : Type := list (string * V).

Module Dict.
Section Ops.
Context {V : Type}.

Definition has_key (k : string) (d : dict V) : bool :=
  existsb (fun kv => String.eqb (fst kv) k) d.

(** [d[k] = v]: an existing key keeps its place. *)
Fixpoint set (k : string) (v : V) (d : dict V) : dict V :=
  match d with
  | [] => [(k, v)]
  | (k', v') :: d' =>
      if String.eqb k' k then (k, v) :: d' else (k', v') :: set k v d'
  end.

(** [d.update(other)]. *)
Definition update (d other : dict V) : dict V :=
  fold_left (fun acc kv => set (fst kv) (snd kv) acc) other d.

(** [d.get(k)]. *)
Fixpoint get (k : string) (d : dict V) : option V :=
  match d with
  | [] => None
  | (k', v) :: d' => if String.eqb k' k then Some v else get k d'
  end.

(** [list(d)]: the keys in insertion order. *)
Definition keys (d : dict V) : list string := map fst d.
End Ops.
End Dict.

(** The values that travel in the keyword-argument bag. *)
Inductive pyvalue : Type :=
| PyValue (v : generic_value)
| PyGenerics (g : dict generic_value)
| PyNone.

Definition kwargs : Type := dict pyvalue.

Module HdlFile.
Record t : Type := { path : Path }.
End HdlFile.

(** Modelled from the spec: [HdlFile.is_vhdl] of [tsfpga.hdl_file], which
    [tcl.py] reads and which is not among the sources.  The spec derives the
    kind of a file from the extension of its path, and the test has
    [file.vhd] as VHDL and [file.v] and [file.vh] as not. *)
Definition hdl_file_is_vhdl (hdl_file : HdlFile.t) : bool :=
  String.eqb (PurePath.suffix (HdlFile.path hdl_file)) ".vhd".

Module IpCoreFile.
Record t : Type := { path : Path }.
End IpCoreFile.

Module Constraint.
Record t : Type := { file : Path }.
End Constraint.

Module BuildStepTclHook.
Record t : Type := { tcl_file : Path; hook_step : string }.
End BuildStepTclHook.

(** A module of the design: its names and its three queries, each of which
    receives the keyword-argument bag. *)
Module BaseModule.
Record t : Type := {
  name : string;
  library_name : string;
  get_synthesis_files : kwargs -> list HdlFile.t;
  get_ip_core_files : kwargs -> list IpCoreFile.t;
  get_scoped_constraints : kwargs -> list Constraint.t
}.
End BaseModule.

Definition nl : string := String (ascii_of_nat 10) EmptyString.
Definition tab : string := String (ascii_of_nat 9) EmptyString.

(** ** [tsfpga/libero/tcl.py] *)

Section Tcl.
Context `{Platform}.

(** [to_tcl_path(path, project_folder, cygwin_root=...)].  The second
    parameter has no default: a call that leaves it out ([None] here) does
    not bind and raises [TypeError]. *)
Definition to_tcl_path (path : Path) (project_folder : option Path)
  : result string :=
  match project_folder with
  | Some folder => Ok (relpath (resolve path) folder)
  | None =>
      Raise (TypeError
        "to_tcl_path() missing 1 required positional argument: 'project_folder'")
  end.
End Tcl.

(** ** [tsfpga/libero/common.py] *)

Module Common.
Section Methods.
Context `{Platform}.

(** [to_tcl_path(path, cygwin_root="C:\\cygwin64")] of [common.py]; the
    default root is the text [C:\cygwin64]. *)
Definition to_tcl_path (path : Path) (cygwin_root : option string) : string :=
  default "C:\cygwin64" cygwin_root +:+ PurePath.str (resolve path).

End Methods.
End Common.

Module LiberoTcl.

Record t : Type := { name : string }.

(** The local variables that [create] fills from the part. *)
Record segments : Type := {
  device : string;
  speed : string;
  package : string;
  temp_range : string
}.

Section Methods.
Context `{Platform}.

(** Lines 49-56 of [create]: the segments of the part. *)
Definition create_part (part : string) : result segments :=
  let parts := Str.split "-" part in
  let* device := getitem parts 0 in
  let* speed := getitem parts 1 in
  let* package := getitem parts 2 in
  let* temp_range :=
    if 3 <? length parts then getitem parts 3 else Ok "COM" in
  Ok {| device := device; speed := speed; package := package;
        temp_range := temp_range |}.

(** Line 64 of [create]: the top module first. *)
Definition create_sort_modules (top : string) (modules : list BaseModule.t)
  : list BaseModule.t :=
  sort_reverse bool_ltb (fun m => String.eqb (BaseModule.name m) top)
    modules.

(** Lines 70-72 of [create]: the top file first. *)
Definition create_sort_files (top : string) (files : list HdlFile.t)
  : list HdlFile.t :=
  sort_reverse bool_ltb
    (fun hdl_file => String.eqb (PurePath.stem (HdlFile.path hdl_file)) top)
    files.

(** Lines 74-81 of [create]: one source file. *)
Definition create_hdl_file (top : string) (project_folder : Path)
    (module : BaseModule.t) (tcl : string) (hdl_file : HdlFile.t)
  : result string :=
  let* hdl_file_path :=
    to_tcl_path (HdlFile.path hdl_file) (Some project_folder) in
  if String.eqb (BaseModule.library_name module) top
  then Ok (tcl +:+ "fpga_file {" +:+ hdl_file_path +:+ "}" +:+ nl)
  else Ok (tcl +:+ "fpga_file {" +:+ hdl_file_path +:+ "} "
               +:+ BaseModule.library_name module +:+ nl).

(** Lines 83-85 of [create]: one IP core file. *)
Definition create_ip_core_file (project_folder : Path) (tcl : string)
    (ip_core_file : IpCoreFile.t) : result string :=
  if String.eqb (PurePath.suffix (IpCoreFile.path ip_core_file)) ".cxf"
  then
    let* p := to_tcl_path (IpCoreFile.path ip_core_file)
                (Some project_folder) in
    Ok (tcl +:+ "fpga_file {" +:+ p +:+ "}" +:+ nl)
  else Ok tcl.

(** Lines 66-85 of [create]: the body of the loop over the modules. *)
Definition create_module (top : string) (project_folder : Path)
    (other_arguments : kwargs) (tcl : string) (module : BaseModule.t)
  : result string :=
  let synthesis_files :=
    create_sort_files top
      (BaseModule.get_synthesis_files module other_arguments) in
  let* tcl :=
    for_each (create_hdl_file top project_folder module)
      synthesis_files tcl in
  for_each (create_ip_core_file project_folder)
    (BaseModule.get_ip_core_files module other_arguments) tcl.

(** Lines 87-88 of [create]: one project constraint. *)
Definition create_constraint (project_folder : Path) (tcl : string)
    (constraint : Constraint.t) : result string :=
  let* p := to_tcl_path (Constraint.file constraint)
              (Some project_folder) in
  Ok (tcl +:+ "fpga_file {" +:+ p +:+ "}" +:+ nl).

(** Lines 61-88 of [create]: the text that replaces [__fpga_files__]. *)
Definition create_fpga_files (project_folder : Path)
    (modules : list BaseModule.t) (top : string)
    (constraints : option (list Constraint.t)) (other_arguments : kwargs)
  : result string :=
  let tcl := EmptyString in
  let modules := create_sort_modules top modules in
  let* tcl :=
    for_each (create_module top project_folder other_arguments)
      modules tcl in
  match constraints with
  | None => Raise (TypeError "'NoneType' object is not iterable")
  | Some constraints =>
      for_each (create_constraint project_folder) constraints tcl
  end.

(** Lines 90-102 of [create]: the template filled in. *)
Definition create_template (self : t) (project_folder : Path)
    (part family top device package speed temp_range tcl : string)
  : string :=
  let tcl_result := template_tcl in
  let tcl_result := Str.replace "__project__" (name self) tcl_result in
  let tcl_result := Str.replace "__part__" part tcl_result in
  let tcl_result := Str.replace "__family__" family tcl_result in
  let tcl_result := Str.replace "__device__" device tcl_result in
  let tcl_result := Str.replace "__package__" package tcl_result in
  let tcl_result := Str.replace "__speed__" speed tcl_result in
  let tcl_result := Str.replace "__temp_range__" temp_range tcl_result in
  let tcl_result := Str.replace "__top__" top tcl_result in
  let tcl_result :=
    Str.replace "__destination__" (PurePath.str project_folder)
      tcl_result in
  Str.replace "__fpga_files__" tcl tcl_result.

(** [LiberoTcl.create].  The assignment [self.top = top] is not kept: the
    method reads [self.top] only after it, so [top] stands for it. *)
Definition create (self : t) (project_folder : Path)
    (modules : list BaseModule.t) (part family top : string)
    (run_index : Z) (generics : option (dict generic_value))
    (constraints : option (list Constraint.t))
    (tcl_sources : option (list Path))
    (build_step_hooks : option (list BuildStepTclHook.t))
    (ip_cache_path : option Path)
    (disable_io_buffers ip_cores_only : bool)
    (other_arguments : option kwargs) : result string :=
  let* segments := create_part part in
  let generics := default [] generics in
  let other_arguments := default [] other_arguments in
  let* tcl :=
    create_fpga_files project_folder modules top constraints
      other_arguments in
  Ok (create_template self project_folder part family top
        (device segments) (package segments) (speed segments)
        (temp_range segments) tcl).

(** [LiberoTcl._add_generics]. *)
Definition _add_generics (generics : option (dict generic_value))
  : string :=
  match generics with
  | None | Some [] => EmptyString
  | Some generics =>
      let generic_list :=
        fold_left
          (fun generic_list '(name, value) =>
             match value with
             | GBool b =>
                 let value_tcl_formatted :=
                   if b then "1'b1" else "1'b0" in
                 generic_list ++ [name +:+ "=" +:+ value_tcl_formatted]
             | _ => generic_list ++ [name +:+ "=" +:+ format_value value]
             end)
          generics [] in
      let generics_string := Str.join " " generic_list in
      "set_property generic {" +:+ generics_string
        +:+ "} [current_fileset]" +:+ nl
  end.

(** The body of the loop of [_add_constraints]. *)
Definition _add_constraints_body (skip_tcl : bool) (tcl : string)
    (constraint : Constraint.t) : result string :=
  let* constraint_file := to_tcl_path (Constraint.file constraint) None in
  let suffix := PurePath.suffix (Constraint.file constraint) in
  if String.eqb suffix ".pdc"
  then Ok (tcl +:+ tab +:+ "create_links -pdc {" +:+ constraint_file
               +:+ "}" +:+ nl)
  else if String.eqb suffix ".sdc"
  then Ok (tcl +:+ tab +:+ "create_links -sdc {" +:+ constraint_file
               +:+ "}" +:+ nl)
  else if String.eqb suffix ".tcl"
  then
    if skip_tcl then Ok tcl
    else Ok (tcl +:+ tab +:+ "source -notrace {" +:+ constraint_file
                 +:+ "}" +:+ nl)
  else Raise (NotImplementedError
                ("Can not handle file: "
                   +:+ PurePath.str (Constraint.file constraint))).

(** [LiberoTcl._add_constraints]. *)
Definition _add_constraints (constraints : list Constraint.t)
    (skip_tcl : bool) : result string :=
  for_each (_add_constraints_body skip_tcl) constraints EmptyString.

(** The body of the loop of [_add_tcl_sources]. *)
Definition _add_tcl_sources_body (tcl : string) (tcl_source_file : Path)
  : result string :=
  let* p := to_tcl_path tcl_source_file None in
  Ok (tcl +:+ "source -notrace {" +:+ p +:+ "}" +:+ nl).

(** [LiberoTcl._add_tcl_sources]. *)
Definition _add_tcl_sources (tcl_sources : option (list Path))
  : result string :=
  match tcl_sources with
  | None => Ok EmptyString
  | Some tcl_sources =>
      for_each _add_tcl_sources_body tcl_sources EmptyString
  end.

(** The inner loop of [_add_module_source_files]: one source file. *)
Definition _add_module_source_files_file (top : string)
    (module : BaseModule.t) (tcl : string) (hdl_file : HdlFile.t)
  : result string :=
  let* p := to_tcl_path (HdlFile.path hdl_file) None in
  let tcl := tcl +:+ tab +:+ "create_links -hdl_source {" +:+ p +:+ "}"
                 +:+ nl in
  if hdl_file_is_vhdl hdl_file
  then
    if negb (String.eqb (BaseModule.library_name module) top)
    then
      let* p' := to_tcl_path (HdlFile.path hdl_file) None in
      Ok (tcl +:+ tab +:+ "add_file_to_library -library "
              +:+ BaseModule.library_name module +:+ " -file {" +:+ p'
              +:+ "}" +:+ nl)
    else Ok tcl
  else Ok tcl.

(** The outer loop of [_add_module_source_files]: one module; a module
    without source files is passed over.  [self_top] is the attribute
    [self.top]: [None] on an object on which [create] has not run, where
    the key of the sort, which reads it for the first file, raises
    [AttributeError]. *)
Definition _add_module_source_files_module (self_top : option string)
    (other_arguments : kwargs) (tcl : string) (module : BaseModule.t)
  : result string :=
  match BaseModule.get_synthesis_files module other_arguments with
  | [] => Ok tcl
  | synthesis_files =>
      match self_top with
      | None =>
          Raise (AttributeError "'LiberoTcl' object has no attribute 'top'")
      | Some top =>
          let synthesis_files :=
            sort_reverse bool_ltb
              (fun name =>
                 String.eqb (PurePath.stem (HdlFile.path name)) top)
              synthesis_files in
          let tcl := tcl +:+ nl in
          let tcl :=
            if negb (String.eqb (BaseModule.library_name module) top)
            then tcl +:+ tab +:+ "add_library -library "
                     +:+ BaseModule.library_name module +:+ nl
            else tcl in
          for_each (_add_module_source_files_file top module)
            synthesis_files tcl
      end
  end.

(** [LiberoTcl._add_module_source_files]; [self_top] is the attribute
    [self.top], which only [create] sets. *)
Definition _add_module_source_files (self_top : option string)
    (modules : list BaseModule.t) (other_arguments : kwargs)
  : result string :=
  for_each (_add_module_source_files_module self_top other_arguments) modules
    EmptyString.

(** [LiberoTcl._iterate_constraints]: what the generator yields, in
    order. *)
Definition _iterate_constraints (modules : list BaseModule.t)
    (constraints : option (list Constraint.t)) (other_arguments : kwargs)
  : list Constraint.t :=
  let yielded :=
    fold_left
      (fun yielded module =>
         fold_left (fun yielded constraint => yielded ++ [constraint])
           (BaseModule.get_scoped_constraints module other_arguments)
           yielded)
      modules [] in
  match constraints with
  | None => yielded
  | Some constraints =>
      fold_left (fun yielded constraint => yielded ++ [constraint])
        constraints yielded
  end.

End Methods.
End LiberoTcl.

(** ** The file system *)

Inductive node : Type :=
| Dir
| File (contents : string).

(** The file system: what is found at each path below the root. *)
Abbreviation FS := (gmap Path node).

(** Code that reads and writes the file system and may raise: the file
    system is handed on also when an exception is raised, nothing is
    rolled back. *)
Definition M (A : Type) : Type := FS -> result A * FS.

Definition ret {A} (a : A) : M A := fun fs => (Ok a, fs).
Definition raise {A} (e : exn) : M A := fun fs => (Raise e, fs).
Definition lift {A} (r : result A) : M A := fun fs => (r, fs).
Definition bind {A B} (m : M A) (k : A -> M B) : M B :=
  fun fs =>
    match m fs with
    | (Ok a, fs') => k a fs'
    | (Raise e, fs') => (Raise e, fs')
    end.

Notation "'do' x '<-' m ';' k" := (bind m (fun x => k))
  (at level 10, x name, m at level 100, k at level 200) : py_scope.

Module Fs.

(** [path.exists()]; the root always exists. *)
Definition exists_ (p : Path) : M bool :=
  fun fs =>
    (Ok (match p with
         | [] => true
         | _ => bool_decide (is_Some (fs !! p))
         end), fs).

(** The directories from [prefix] down to [prefix ++ rest] are made one
    after the other; an ancestor that is a file stops it. *)
Fixpoint mkdir_from (prefix : Path) (rest : list string) : M unit :=
  fun fs =>
    match rest with
    | [] => (Raise (FileExistsError (PurePath.str prefix)), fs)
    | [c] =>
        let p := prefix ++ [c] in
        match fs !! p with
        | Some _ => (Raise (FileExistsError (PurePath.str p)), fs)
        | None => (Ok tt, <[p := Dir]> fs)
        end
    | c :: rest' =>
        let p := prefix ++ [c] in
        match fs !! p with
        | Some Dir => mkdir_from p rest' fs
        | Some (File _) => (Raise (NotADirectoryError (PurePath.str p)), fs)
        | None => mkdir_from p rest' (<[p := Dir]> fs)
        end
    end.

(** [path.mkdir(parents=True)]. *)
Definition mkdir_parents (p : Path) : M unit :=
  fun fs =>
    match fs !! p with
    | Some _ => (Raise (FileExistsError (PurePath.str p)), fs)
    | None => mkdir_from [] p fs
    end.

(** Modelled from the spec: [create_file] of [tsfpga.system_utils], which
    is imported by [project.py] and is not among the sources.  The spec
    has [create] write the assembled text "to a fixed file name inside
    [project_path]": the file at that path holds the text afterwards. *)
Definition create_file (file : Path) (contents : string) : M Path :=
  fun fs => (Ok file, <[file := File contents]> fs).

(** The regular files of a file system, with their contents. *)
Definition files (fs : FS) : gmap Path string :=
  omap (fun n => match n with File c => Some c | Dir => None end) fs.

End Fs.

(** ** [tsfpga/libero/project.py] *)

(** [copy_and_combine_dicts]. *)
Definition copy_and_combine_dicts {V} (dict_first dict_second : option (dict V))
  : option (dict V) :=
  match dict_first, dict_second with
  | None, None => None
  | None, Some second => Some second
  | Some first, None => Some first
  | Some first, Some second => Some (Dict.update first second)
  end.

Module LiberoProject.

(** An object of the class, or of a class derived from it: the attributes
    set by [__init__], and the method [pre_create], which a derived class
    overrides.  The hook is given the arguments of the call and the file
    system; it returns the truth value of its result, or raises. *)
Record t : Type := {
  name : string;
  modules : list BaseModule.t;
  part : string;
  family : string;
  static_generics : dict generic_value;
  constraints : list Constraint.t;
  tcl_sources : list Path;
  build_step_hooks : list BuildStepTclHook.t;
  _vivado_path : option Path;
  default_run_index : Z;
  defined_at : option Path;
  other_arguments : option kwargs;
  is_netlist_build : bool;
  analyze_synthesis_timing : bool;
  report_logic_level_distribution : bool;
  ip_cores_only : bool;
  top : string;
  tcl : LiberoTcl.t;
  pre_create : Path -> option Path -> kwargs -> M bool
}.

(** [LiberoProject.pre_create] of the class itself. *)
Definition base_pre_create (project_path : Path)
    (ip_cache_path : option Path) (kw : kwargs) : M bool :=
  ret true.

(** [LiberoProject.__init__]; [other_arguments] is the dictionary of the
    keyword arguments that are not named in the signature. *)
Definition __init__ (name : string) (modules : list BaseModule.t)
    (part family : string) (top : option string)
    (generics : option (dict generic_value))
    (constraints : option (list Constraint.t))
    (tcl_sources : option (list Path))
    (build_step_hooks : option (list BuildStepTclHook.t))
    (vivado_path : option Path) (default_run_index : Z)
    (defined_at : option Path) (other_arguments : kwargs) : t :=
  {| name := name;
     modules := modules;
     part := part;
     family := family;
     static_generics := default [] generics;
     constraints := default [] constraints;
     tcl_sources := default [] tcl_sources;
     build_step_hooks := default [] build_step_hooks;
     _vivado_path := vivado_path;
     default_run_index := default_run_index;
     defined_at := defined_at;
     other_arguments := Some other_arguments;
     is_netlist_build := false;
     analyze_synthesis_timing := true;
     report_logic_level_distribution := false;
     ip_cores_only := false;
     top := match top with
            | None => "top_" +:+ name
            | Some top => top
            end;
     tcl := {| LiberoTcl.name := name |};
     pre_create := base_pre_create |}.

(** [LiberoProject.project_file]. *)
Definition project_file (self : t) (project_path : Path) : Path :=
  PurePath.truediv project_path (name self +:+ ".xpr").

Section Methods.
Context `{Platform}.

(** [LiberoProject._create_tcl]. *)
Definition _create_tcl (self : t) (project_path : Path)
    (ip_cache_path : option Path) (all_arguments : option kwargs)
  : M Path :=
  do present <- Fs.exists_ project_path;
  if (present : bool)
  then raise (ValueError ("Folder already exists: "
                            +:+ PurePath.str project_path))
  else
    do _u <- Fs.mkdir_parents project_path;
    let create_libero_project_tcl :=
      PurePath.joinpath project_path "create_libero_project.tcl" in
    do text <-
      lift (LiberoTcl.create (tcl self) project_path (modules self)
              (part self) (family self) (top self)
              (default_run_index self) (Some (static_generics self))
              (Some (constraints self)) (Some (tcl_sources self))
              (Some (build_step_hooks self)) ip_cache_path
              (is_netlist_build self) (ip_cores_only self)
              all_arguments);
    do _f <- Fs.create_file create_libero_project_tcl text;
    ret create_libero_project_tcl.

(** The call [self.pre_create(project_path=..., ip_cache_path=...,
    **all_arguments)]: a key of the bag that repeats one of the two
    named arguments does not bind. *)
Definition call_pre_create (self : t) (project_path : Path)
    (ip_cache_path : option Path) (all_arguments : kwargs) : M bool :=
  if Dict.has_key "project_path" all_arguments
     || Dict.has_key "ip_cache_path" all_arguments
  then raise (TypeError "got multiple values for keyword argument")
  else pre_create self project_path ip_cache_path all_arguments.

(** Lines 202-206 of [create]: the bag handed to the hook and to the
    module queries. *)
Definition create_all_arguments (self : t) (other_arguments : kwargs)
  : result kwargs :=
  match copy_and_combine_dicts (LiberoProject.other_arguments self)
          (Some other_arguments) with
  | None =>
      Raise (AttributeError "'NoneType' object has no attribute 'update'")
  | Some all_arguments =>
      Ok (Dict.update all_arguments
            [("generics", PyGenerics (static_generics self));
             ("part", PyValue (GStr (part self)))])
  end.

(** [LiberoProject.create]; the result is what the call returns.  The
    deep copy of the module list leaves its value as it is. *)
Definition create (self : t) (project_path : Path)
    (ip_cache_path : option Path) (other_arguments : kwargs) : M bool :=
  do all_arguments <- lift (create_all_arguments self other_arguments);
  do accepted <-
    call_pre_create self project_path ip_cache_path all_arguments;
  if (accepted : bool)
  then
    do _p <- _create_tcl self project_path ip_cache_path
               (Some all_arguments);
    ret true
  else ret false.

End Methods.

(** A derived class that overrides [pre_create]. *)
Definition override_pre_create (self : t)
    (hook : Path -> option Path -> kwargs -> M bool) : t :=
  {| name := name self;
     modules := modules self;
     part := part self;
     family := family self;
     static_generics := static_generics self;
     constraints := constraints self;
     tcl_sources := tcl_sources self;
     build_step_hooks := build_step_hooks self;
     _vivado_path := _vivado_path self;
     default_run_index := default_run_index self;
     defined_at := defined_at self;
     other_arguments := other_arguments self;
     is_netlist_build := is_netlist_build self;
     analyze_synthesis_timing := analyze_synthesis_timing self;
     report_logic_level_distribution := report_logic_level_distribution self;
     ip_cores_only := ip_cores_only self;
     top := top self;
     tcl := tcl self;
     pre_create := hook |}.

(** The same object with other generics, TCL sources, build step hooks
    and run index. *)
Definition with_unused (self : t) (generics : dict generic_value)
    (tcl_sources : list Path) (build_step_hooks : list BuildStepTclHook.t)
    (run_index : Z) : t :=
  {| name := name self;
     modules := modules self;
     part := part self;
     family := family self;
     static_generics := generics;
     constraints := constraints self;
     tcl_sources := tcl_sources;
     build_step_hooks := build_step_hooks;
     _vivado_path := _vivado_path self;
     default_run_index := run_index;
     defined_at := defined_at self;
     other_arguments := other_arguments self;
     is_netlist_build := is_netlist_build self;
     analyze_synthesis_timing := analyze_synthesis_timing self;
     report_logic_level_distribution := report_logic_level_distribution self;
     ip_cores_only := ip_cores_only self;
     top := top self;
     tcl := tcl self;
     pre_create := pre_create self |}.

End LiberoProject.

(** ** The words of the specification *)

(** A generic as the serializer is specified to write it: [name=value],
    a boolean as a one-bit literal, anything else as its text. *)
Definition rendered_generic (entry : string * generic_value) : string :=
  match entry with
  | (name, GBool true) => name +:+ "=1'b1"
  | (name, GBool false) => name +:+ "=1'b0"
  | (name, GInt z) => name +:+ "=" +:+ Str.of_Z z
  | (name, GStr s) => name +:+ "=" +:+ s
  end.

(** The statements of the elements of a list, one after the other. *)
Definition statements {A} (text : A -> string) (l : list A) : string :=
  foldr (fun x rest => text x +:+ rest) EmptyString l.

(** A plain file registration of a constraint. *)
Definition plain_registration `{Platform} (project_folder : Path)
    (constraint : Constraint.t) : string :=
  "fpga_file {" +:+ relpath (resolve (Constraint.file constraint)) project_folder
    +:+ "}" +:+ nl.

(** The registration of a source file: without a library for the module
    whose library is [top], with the library of its module otherwise. *)
Definition hdl_registration `{Platform} (top : string) (project_folder : Path)
    (module : BaseModule.t) (hdl_file : HdlFile.t) : string :=
  let p := relpath (resolve (HdlFile.path hdl_file)) project_folder in
  if String.eqb (BaseModule.library_name module) top
  then "fpga_file {" +:+ p +:+ "}" +:+ nl
  else "fpga_file {" +:+ p +:+ "} " +:+ BaseModule.library_name module +:+ nl.

(** The registration of an IP core file: only for the suffix [.cxf]. *)
Definition ip_core_registration `{Platform} (project_folder : Path)
    (ip_core_file : IpCoreFile.t) : string :=
  if String.eqb (PurePath.suffix (IpCoreFile.path ip_core_file)) ".cxf"
  then "fpga_file {"
         +:+ relpath (resolve (IpCoreFile.path ip_core_file)) project_folder
         +:+ "}" +:+ nl
  else EmptyString.

(** The statements of a module: its source files, the top file first, then
    its IP core files. *)
Definition module_statements `{Platform} (top : string) (project_folder : Path)
    (other_arguments : kwargs) (module : BaseModule.t) : string :=
  statements (hdl_registration top project_folder module)
    (LiberoTcl.create_sort_files top
       (BaseModule.get_synthesis_files module other_arguments))
  +:+ statements (ip_core_registration project_folder)
        (BaseModule.get_ip_core_files module other_arguments).

(** A module gives [create] the same files for two argument bags. *)
Definition same_files (module : BaseModule.t) (kw kw' : kwargs) : Prop :=
  BaseModule.get_synthesis_files module kw
  = BaseModule.get_synthesis_files module kw'
  /\ BaseModule.get_ip_core_files module kw
     = BaseModule.get_ip_core_files module kw'.

(** The placeholders that [create] replaces in the template. *)
Definition template_placeholders : list string :=
  ["__project__"; "__part__"; "__family__"; "__device__"; "__package__";
   "__speed__"; "__temp_range__"; "__top__"; "__destination__";
   "__fpga_files__"].

(** ** Inputs for the examples *)

Module Examples.

(** A machine without symbolic links, and a small template. *)
Definition platform : Platform :=
  {| template_tcl :=
       "new_project -name {__project__} -location {__destination__} "
         +:+ "-family {__family__} -die {__device__} -package {__package__} "
         +:+ "-speed {__speed__} -part_range {__temp_range__}" +:+ nl
         +:+ "__fpga_files__"
         +:+ "set_root -module {__top__::work}" +:+ nl;
     resolve := fun p => p |}.

Definition project_path : Path := ["build"; "artyz7"].

Definition script_path : Path :=
  PurePath.joinpath project_path "create_libero_project.tcl".

Definition pins_pdc : Constraint.t :=
  {| Constraint.file := ["work"; "tcl"; "pins.pdc"] |}.

Definition notes_foo : Constraint.t :=
  {| Constraint.file := ["work"; "tcl"; "notes.foo"] |}.

Definition decline (project_path : Path) (ip_cache_path : option Path)
    (kw : kwargs) : M bool :=
  ret false.

(** A project without modules. *)
Definition project (part : string) (constraints : list Constraint.t)
  : LiberoProject.t :=
  LiberoProject.__init__ "artyz7" [] part "SmartFusion2" None None
    (Some constraints) None None None 1%Z None [].

(** A template without placeholders. *)
Definition fixed_platform : Platform :=
  {| template_tcl := "open_project -file {artyz7.prjx}" +:+ nl;
     resolve := fun p => p |}.

(** A library module and the top module, whose top file comes last. *)
Definition math_module : BaseModule.t :=
  {| BaseModule.name := "math";
     BaseModule.library_name := "math";
     BaseModule.get_synthesis_files :=
       fun _ => [{| HdlFile.path := ["work"; "math"; "adder.vhd"] |}];
     BaseModule.get_ip_core_files := fun _ => [];
     BaseModule.get_scoped_constraints := fun _ => [] |}.

Definition top_module : BaseModule.t :=
  {| BaseModule.name := "top_artyz7";
     BaseModule.library_name := "top_artyz7";
     BaseModule.get_synthesis_files :=
       fun _ => [{| HdlFile.path := ["work"; "top"; "pkg.vhd"] |};
                 {| HdlFile.path := ["work"; "top"; "top_artyz7.vhd"] |}];
     BaseModule.get_ip_core_files := fun _ => [];
     BaseModule.get_scoped_constraints := fun _ => [] |}.

(** A module that adds a file when the generics of the argument bag hold
    [with_debug]. *)
Definition debug_module : BaseModule.t :=
  {| BaseModule.name := "debug";
     BaseModule.library_name := "debug";
     BaseModule.get_synthesis_files :=
       fun kw =>
         match Dict.get "generics" kw with
         | Some (PyGenerics generics) =>
             if Dict.has_key "with_debug" generics
             then [{| HdlFile.path := ["work"; "debug"; "probe.vhd"] |}]
             else []
         | _ => []
         end;
     BaseModule.get_ip_core_files := fun _ => [];
     BaseModule.get_scoped_constraints := fun _ => [] |}.

(** A project of given modules and generics. *)
Definition project_of (modules : list BaseModule.t)
    (generics : dict generic_value) : LiberoProject.t :=
  LiberoProject.__init__ "artyz7" modules "M2S010-1-VF400" "SmartFusion2"
    None (Some generics) None None None None 1%Z None [].

(** A file system in which an earlier call has left its script. *)
Definition built : FS :=
  <[script_path := File "old script"]>
    (<[project_path := Dir]> (<[["build"] := Dir]> ∅)).

End Examples.

(** * Properties *)

(** ** The run time *)

Lemma for_each_app {A S} (body : S -> A -> result S) (l1 l2 : list A) (acc : S) :
  for_each body (l1 ++ l2) acc
  = let* acc' := for_each body l1 acc in for_each body l2 acc'.
Proof.
  revert acc. induction l1 as [|x l1 IH]; intros acc; simpl; [done|].
  destruct (body acc x) as [acc'|e]; simpl; [apply IH | done].
Qed.

Lemma append_cons (c : ascii) (s t : string) :
  String c s +:+ t = String c (s +:+ t).
Proof. reflexivity. Qed.

Lemma append_nil_l (s : string) : "" +:+ s = s.
Proof. reflexivity. Qed.

Lemma append_nil_r (s : string) : s +:+ "" = s.
Proof. induction s as [|c s IH]; [done|]. by rewrite append_cons, IH. Qed.

Lemma append_assoc (s1 s2 s3 : string) :
  (s1 +:+ s2) +:+ s3 = s1 +:+ s2 +:+ s3.
Proof.
  induction s1 as [|c s1 IH]; [done|]. by rewrite !append_cons, IH.
Qed.

(** A loop whose body only appends a text to the accumulator. *)
Lemma for_each_append {A} (body : string -> A -> result string)
    (text : A -> string) (l : list A) (acc : string) :
  (forall acc x, body acc x = Ok (acc +:+ text x)) ->
  for_each body l acc = Ok (acc +:+ statements text l).
Proof.
  intros Hbody. revert acc.
  induction l as [|x l IH]; intros acc; simpl.
  - by rewrite append_nil_r.
  - rewrite Hbody. simpl. rewrite IH. by rewrite append_assoc.
Qed.

(** ** Sorting with the key of [create] *)

Section SortBool.
Context {A : Type} (key : A -> bool).

Lemma insert_reverse_Permutation {K} (ltb : K -> K -> bool) (k : A -> K) x l :
  insert_reverse ltb k x l ≡ₚ x :: l.
Proof.
  induction l as [|y l IH]; simpl; [done|].
  destruct (ltb (k x) (k y)); [|done].
  rewrite IH. apply Permutation_swap.
Qed.

Lemma sort_reverse_Permutation {K} (ltb : K -> K -> bool) (k : A -> K) l :
  sort_reverse ltb k l ≡ₚ l.
Proof.
  induction l as [|x l IH]; simpl; [done|].
  rewrite insert_reverse_Permutation. by rewrite IH.
Qed.

Lemma insert_reverse_true x l :
  key x = true -> insert_reverse bool_ltb key x l = x :: l.
Proof. intros Hx. destruct l; simpl; [done|]. by rewrite Hx. Qed.

Lemma insert_reverse_false x l1 l2 :
  key x = false ->
  Forall (fun y => key y = true) l1 ->
  Forall (fun y => key y = false) l2 ->
  insert_reverse bool_ltb key x (l1 ++ l2) = l1 ++ x :: l2.
Proof.
  intros Hx H1 H2. induction H1 as [|y l1 Hy _ IH]; simpl.
  - destruct H2 as [|z l2 Hz _]; simpl; [done|]. by rewrite Hx, Hz.
  - rewrite Hx, Hy. simpl. by rewrite IH.
Qed.

(** On a boolean key the sort is the stable partition. *)
Lemma sort_reverse_partition (P : A -> Prop) `{!forall x, Decision (P x)} l :
  (forall x, key x = true <-> P x) ->
  sort_reverse bool_ltb key l
  = filter P l ++ filter (fun x => ~ P x) l.
Proof.
  intros Hkey. induction l as [|x l IH]; simpl; [done|].
  rewrite IH. rewrite !filter_cons.
  destruct (decide (P x)) as [HP|HP].
  - rewrite decide_False by tauto.
    apply insert_reverse_true. by apply Hkey.
  - rewrite decide_True by done.
    apply insert_reverse_false.
    + destruct (key x) eqn:E; [|done]. by apply Hkey in E.
    + apply Forall_forall. intros y Hy.
      apply list_elem_of_filter in Hy.
      apply Hkey, Hy.
    + apply Forall_forall. intros y Hy.
      apply list_elem_of_filter in Hy.
      destruct Hy as [Hy _]. destruct (key y) eqn:E; [|done].
      by apply Hkey in E.
Qed.
End SortBool.

(** When nothing satisfies the key the list stays as it is; otherwise the
    first element that does comes first. *)
Lemma stable_partition_head {A} (P : A -> Prop) `{!forall x, Decision (P x)}
    (l : list A) :
  match filter P l with
  | [] => filter P l ++ filter (fun x => ~ P x) l = l
  | x :: _ => head (filter P l ++ filter (fun x => ~ P x) l) = Some x
  end.
Proof.
  destruct (filter P l) as [|x rest] eqn:E; [|done].
  simpl. induction l as [|y l IH]; [done|].
  rewrite filter_cons in E. rewrite filter_cons.
  destruct (decide (P y)) as [HP|HP]; [done|].
  rewrite decide_True by done. f_equal. by apply IH.
Qed.

(** C5.  For every module list and every top identifier, the modules
    named [top] come first and the other modules keep their order (a
    stable partition); in every synthesis-file list the files whose stem
    is [top] come first and the other files keep their order.  So a module
    or file named [top] is at the head, and without one the order is the
    input order. *)
Theorem orderer_top_first_stable (top : string)
    (modules : list BaseModule.t) (files : list HdlFile.t) :
  LiberoTcl.create_sort_modules top modules
  = filter (fun m => BaseModule.name m = top) modules
      ++ filter (fun m => BaseModule.name m <> top) modules
  /\ LiberoTcl.create_sort_files top files
     = filter (fun f => PurePath.stem (HdlFile.path f) = top) files
         ++ filter (fun f => PurePath.stem (HdlFile.path f) <> top) files
  /\ match filter (fun m => BaseModule.name m = top) modules with
     | [] => LiberoTcl.create_sort_modules top modules = modules
     | m :: _ => head (LiberoTcl.create_sort_modules top modules) = Some m
     end
  /\ match filter (fun f => PurePath.stem (HdlFile.path f) = top) files with
     | [] => LiberoTcl.create_sort_files top files = files
     | f :: _ => head (LiberoTcl.create_sort_files top files) = Some f
     end.
Proof.
  assert (LiberoTcl.create_sort_modules top modules
          = filter (fun m => BaseModule.name m = top) modules
              ++ filter (fun m => BaseModule.name m <> top) modules) as Hm.
  { unfold LiberoTcl.create_sort_modules.
    apply (sort_reverse_partition _ (fun m => BaseModule.name m = top)).
    intros m. apply String.eqb_eq. }
  assert (LiberoTcl.create_sort_files top files
          = filter (fun f => PurePath.stem (HdlFile.path f) = top) files
              ++ filter (fun f => PurePath.stem (HdlFile.path f) <> top) files)
    as Hf.
  { unfold LiberoTcl.create_sort_files.
    apply (sort_reverse_partition _
             (fun f => PurePath.stem (HdlFile.path f) = top)).
    intros f. apply String.eqb_eq. }
  split; [exact Hm|]. split; [exact Hf|]. split.
  - rewrite Hm.
    apply (stable_partition_head (fun m => BaseModule.name m = top)).
  - rewrite Hf.
    apply (stable_partition_head
             (fun f => PurePath.stem (HdlFile.path f) = top)).
Qed.

(** ** The generic serializer *)

(** The loop of [_add_generics] collects the rendered entries in order. *)
Lemma add_generics_loop (generics : dict generic_value) (acc : list string) :
  fold_left
    (fun generic_list '(name, value) =>
       match value with
       | GBool b =>
           let value_tcl_formatted := if b then "1'b1" else "1'b0" in
           generic_list ++ [name +:+ "=" +:+ value_tcl_formatted]
       | _ => generic_list ++ [name +:+ "=" +:+ format_value value]
       end)
    generics acc
  = acc ++ map rendered_generic generics.
Proof.
  revert acc. induction generics as [|[name value] generics IH]; intros acc.
  - simpl. by rewrite app_nil_r.
  - cbn [fold_left map]. rewrite IH.
    destruct value as [[|]| |]; cbn beta iota zeta; by rewrite <- app_assoc.
Qed.

(** C6.  The serializer maps no generics to the empty string, and a
    non-empty mapping to one command that holds the entries as
    [name=value] in insertion order with single spaces between them, a
    boolean as [1'b1] or [1'b0] and any other value as its text;
    [{enable: true, width: 8}] gives one statement with [enable=1'b1] and
    [width=8]. *)
Theorem add_generics_serializes (entry : string * generic_value)
    (generics : dict generic_value) :
  LiberoTcl._add_generics (Some []) = ""
  /\ LiberoTcl._add_generics None = ""
  /\ LiberoTcl._add_generics (Some (entry :: generics))
     = "set_property generic {"
         +:+ Str.join " " (map rendered_generic (entry :: generics))
         +:+ "} [current_fileset]" +:+ nl
  /\ LiberoTcl._add_generics
       (Some [("enable", GBool true); ("width", GInt 8)])
     = "set_property generic {enable=1'b1 width=8} [current_fileset]" +:+ nl.
Proof.
  split; [reflexivity|]. split; [reflexivity|]. split; [|reflexivity].
  unfold LiberoTcl._add_generics.
  by rewrite add_generics_loop.
Qed.

(** ** The part *)

Lemma split_nonempty (sep : ascii) (s : string) : Str.split sep s <> [].
Proof.
  destruct s as [|c s]; simpl; [done|].
  destruct (Ascii.eqb c sep); [done|]. by destruct (Str.split sep s).
Qed.

(** The segments hold no separator. *)
Lemma split_no_separator (sep : ascii) (s : string) :
  Forall (fun segment => Str.rfind sep segment = None) (Str.split sep s).
Proof.
  induction s as [|c s IH]; simpl; [by repeat constructor|].
  destruct (Ascii.eqb c sep) eqn:E; [by constructor|].
  destruct (Str.split sep s) as [|h t]; [by repeat constructor; simpl; rewrite E|].
  inversion IH as [|? ? Hh Ht]; subst. constructor; [|done].
  simpl. by rewrite Hh, E.
Qed.

(** Joining the segments with the separator gives the string back. *)
Lemma split_join (s : string) : Str.join "-" (Str.split "-" s) = s.
Proof.
  induction s as [|c s IH]; [done|].
  cbn [Str.split]. destruct (Ascii.eqb c "-") eqn:E.
  - apply Ascii.eqb_eq in E. subst c.
    pose proof (split_nonempty "-" s) as Hne.
    destruct (Str.split "-" s) as [|h t]; [done|].
    unfold Str.join in *. cbn [String.concat] in *. by rewrite IH.
  - pose proof (split_nonempty "-" s) as Hne.
    destruct (Str.split "-" s) as [|h t]; [done|].
    unfold Str.join in *. destruct t; cbn [String.concat] in *;
      by rewrite <- IH.
Qed.

(** C2, as the code has it.  The part is split on dashes (the segments
    hold no dash and, joined by dashes, give the part back).  The part
    ["xc7z020-clg400-1-COM"] gives device [xc7z020], speed [clg400],
    package [1] and temperature range [COM]: the second segment is the
    speed and the third the package.  A part of exactly three segments
    gets the temperature range ["COM"]. *)
Theorem part_segments_in_order (part : string)
    (Hthree : length (Str.split "-" part) = 3) :
  Forall (fun segment => Str.rfind "-" segment = None) (Str.split "-" part)
  /\ Str.join "-" (Str.split "-" part) = part
  /\ LiberoTcl.create_part "xc7z020-clg400-1-COM"
     = Ok {| LiberoTcl.device := "xc7z020"; LiberoTcl.speed := "clg400";
             LiberoTcl.package := "1"; LiberoTcl.temp_range := "COM" |}
  /\ exists device speed package,
       Str.split "-" part = [device; speed; package]
       /\ LiberoTcl.create_part part
          = Ok {| LiberoTcl.device := device; LiberoTcl.speed := speed;
                  LiberoTcl.package := package;
                  LiberoTcl.temp_range := "COM" |}.
Proof.
  split; [apply split_no_separator|]. split; [apply split_join|].
  split; [reflexivity|].
  unfold LiberoTcl.create_part.
  destruct (Str.split "-" part) as [|d [|s [|p [|x rest]]]];
    simpl in Hthree; try discriminate.
  by exists d, s, p.
Qed.

Lemma part_segments_in_order_witness :
  length (Str.split "-" "M2S010-1-VF400") = 3
  /\ LiberoTcl.create_part "M2S010-1-VF400"
     = Ok {| LiberoTcl.device := "M2S010"; LiberoTcl.speed := "1";
             LiberoTcl.package := "VF400"; LiberoTcl.temp_range := "COM" |}.
Proof.
  split; [reflexivity|].
  destruct (part_segments_in_order "M2S010-1-VF400" eq_refl)
    as (_ & _ & _ & device & speed & package & Hsplit & Hpart).
  injection Hsplit as <- <- <-. exact Hpart.
Defined.

(** C2 as stated fails: for ["xc7z020-clg400-1-COM"] the code does not
    give package [clg400] and speed [1]. *)
Lemma part_example_counterexample :
  LiberoTcl.create_part "xc7z020-clg400-1-COM"
  <> Ok {| LiberoTcl.device := "xc7z020"; LiberoTcl.package := "clg400";
           LiberoTcl.speed := "1"; LiberoTcl.temp_range := "COM" |}.
Proof. discriminate. Qed.

(** ** The constraint router *)

(** C4, on the code.  [_add_constraints] calls [to_tcl_path] with the
    path alone, and the [to_tcl_path] of [tcl.py] requires the project
    folder too: for every non-empty list of constraints, whatever their
    suffixes and whatever the skip mode, the call raises [TypeError] at the
    first constraint, before any suffix is looked at. *)
Theorem add_constraints_does_not_bind `{Platform} (constraint : Constraint.t)
    (constraints : list Constraint.t) (skip_tcl : bool) :
  LiberoTcl._add_constraints (constraint :: constraints) skip_tcl
  = Raise (TypeError
      "to_tcl_path() missing 1 required positional argument: 'project_folder'")
  /\ LiberoTcl._add_constraints [] skip_tcl = Ok ""
  /\ LiberoTcl._add_constraints (H:=Examples.platform) [Examples.pins_pdc] true
     <> Ok (tab +:+ "create_links -pdc {../../work/tcl/pins.pdc}" +:+ nl).
Proof.
  split; [|split; [reflexivity | discriminate]].
  unfold LiberoTcl._add_constraints. cbn [for_each].
  unfold LiberoTcl._add_constraints_body at 1.
  reflexivity.
Qed.

(** ** The descriptor *)

(** C9, as the code has it.  After construction [top] is the supplied
    value when one is given and ["top_"] followed by the name when it is
    not; it is non-empty unless the empty string was supplied. *)
Theorem init_top (name : string) (modules : list BaseModule.t)
    (part family : string) (top : option string)
    (generics : option (dict generic_value))
    (constraints : option (list Constraint.t))
    (tcl_sources : option (list Path))
    (build_step_hooks : option (list BuildStepTclHook.t))
    (vivado_path : option Path) (default_run_index : Z)
    (defined_at : option Path) (other_arguments : kwargs)
    (Hgiven : top <> Some "") :
  let self :=
    LiberoProject.__init__ name modules part family top generics constraints
      tcl_sources build_step_hooks vivado_path default_run_index defined_at
      other_arguments in
  LiberoProject.top self
  = match top with
    | Some supplied => supplied
    | None => "top_" +:+ name
    end
  /\ LiberoProject.top self <> "".
Proof.
  simpl. split; [done|]. destruct top as [supplied|]; [congruence | done].
Qed.

Lemma init_top_witness :
  (None : option string) <> Some ""
  /\ LiberoProject.top
       (LiberoProject.__init__ "artyz7" [] "M2S010-1-VF400" "SmartFusion2" None
          None None None None None 1%Z None [])
     = "top_artyz7".
Proof.
  assert ((None : option string) <> Some "") as Hgiven by discriminate.
  split; [exact Hgiven|].
  exact (proj1 (init_top "artyz7" [] "M2S010-1-VF400" "SmartFusion2" None
                  None None None None None 1%Z None [] Hgiven)).
Defined.

(** C9 as stated fails: the empty string supplied as [top] stays. *)
Lemma init_top_counterexample :
  LiberoProject.top
    (LiberoProject.__init__ "artyz7" [] "M2S010-1-VF400" "SmartFusion2"
       (Some "") None None None None None 1%Z None [])
  = "".
Proof. reflexivity. Qed.

(** ** The statements of [create] *)

Section Assembly.
Context `{Platform}.

Lemma create_hdl_file_appends top project_folder module tcl hdl_file :
  LiberoTcl.create_hdl_file top project_folder module tcl hdl_file
  = Ok (tcl +:+ hdl_registration top project_folder module hdl_file).
Proof.
  unfold LiberoTcl.create_hdl_file, hdl_registration. simpl.
  by destruct (String.eqb (BaseModule.library_name module) top).
Qed.

Lemma create_ip_core_file_appends project_folder tcl ip_core_file :
  LiberoTcl.create_ip_core_file project_folder tcl ip_core_file
  = Ok (tcl +:+ ip_core_registration project_folder ip_core_file).
Proof.
  unfold LiberoTcl.create_ip_core_file, ip_core_registration.
  destruct (String.eqb _ ".cxf"); simpl; [done|].
  by rewrite append_nil_r.
Qed.

Lemma create_module_appends top project_folder other_arguments tcl module :
  LiberoTcl.create_module top project_folder other_arguments tcl module
  = Ok (tcl +:+ module_statements top project_folder other_arguments module).
Proof.
  unfold LiberoTcl.create_module, module_statements.
  rewrite (for_each_append _ (hdl_registration top project_folder module))
    by apply create_hdl_file_appends.
  simpl.
  rewrite (for_each_append _ (ip_core_registration project_folder))
    by apply create_ip_core_file_appends.
  by rewrite append_assoc.
Qed.

Lemma create_constraint_appends project_folder tcl constraint :
  LiberoTcl.create_constraint project_folder tcl constraint
  = Ok (tcl +:+ plain_registration project_folder constraint).
Proof. reflexivity. Qed.

(** The whole block: the modules, the top module first, then the
    constraints. *)
Lemma create_fpga_files_text project_folder modules top constraints
    other_arguments :
  LiberoTcl.create_fpga_files project_folder modules top (Some constraints)
    other_arguments
  = Ok (statements (module_statements top project_folder other_arguments)
          (LiberoTcl.create_sort_modules top modules)
        +:+ statements (plain_registration project_folder) constraints).
Proof.
  unfold LiberoTcl.create_fpga_files.
  rewrite (for_each_append _
             (module_statements top project_folder other_arguments))
    by apply create_module_appends.
  simpl.
  by rewrite (for_each_append _ (plain_registration project_folder))
    by apply create_constraint_appends.
Qed.

(** C1, as the code has it.  [create] appends, after the statements of
    the modules and in the given order, one plain file registration
    [fpga_file {path}] for every project constraint, whatever its suffix;
    the router is not used, and no suffix makes [create] raise
    [NotImplementedError]. *)
Theorem create_registers_constraints_plainly (self : LiberoTcl.t)
    (project_folder : Path) (modules : list BaseModule.t)
    (part family top : string) (run_index : Z)
    (generics : option (dict generic_value))
    (constraints : list Constraint.t) (tcl_sources : option (list Path))
    (build_step_hooks : option (list BuildStepTclHook.t))
    (ip_cache_path : option Path) (disable_io_buffers ip_cores_only : bool)
    (other_arguments : option kwargs) :
  LiberoTcl.create_fpga_files project_folder modules top (Some constraints)
    (default [] other_arguments)
  = Ok (statements
          (module_statements top project_folder (default [] other_arguments))
          (LiberoTcl.create_sort_modules top modules)
        +:+ statements (plain_registration project_folder) constraints)
  /\ forall msg,
       LiberoTcl.create self project_folder modules part family top run_index
         generics (Some constraints) tcl_sources build_step_hooks
         ip_cache_path disable_io_buffers ip_cores_only other_arguments
       <> Raise (NotImplementedError msg).
Proof.
  split; [apply create_fpga_files_text|].
  intros msg. unfold LiberoTcl.create.
  rewrite create_fpga_files_text.
  unfold LiberoTcl.create_part.
  repeat match goal with
         | |- context [getitem ?l ?i] => destruct (getitem l i) eqn:?; simpl
         | |- context [if ?b then _ else _] => destruct b; simpl
         | H : getitem _ _ = Raise _ |- _ =>
             unfold getitem in H; destruct (_ !! _) in H; simplify_eq
         end; try discriminate.
Qed.
End Assembly.

(** C1 as stated fails: a [.pdc] constraint gives no link command with
    [-pdc], and a constraint with the suffix [.foo] does not make the
    assembly fail; both are written as plain file registrations. *)
Lemma constraints_not_routed_counterexample :
  LiberoTcl.create_fpga_files (H:=Examples.platform) Examples.project_path []
    "top_artyz7" (Some [Examples.pins_pdc; Examples.notes_foo]) []
  = Ok ("fpga_file {../../work/tcl/pins.pdc}" +:+ nl
          +:+ "fpga_file {../../work/tcl/notes.foo}" +:+ nl)
  /\ Str.contains "-pdc"
       ("fpga_file {../../work/tcl/pins.pdc}" +:+ nl
          +:+ "fpga_file {../../work/tcl/notes.foo}" +:+ nl) = false
  /\ is_ok
       (LiberoTcl.create (H:=Examples.platform) {| LiberoTcl.name := "artyz7" |}
          Examples.project_path [] "M2S010-1-VF400" "SmartFusion2"
          "top_artyz7" 1%Z None (Some [Examples.notes_foo]) None None None
          true false None) = true.
Proof. repeat split; reflexivity. Qed.

(** ** The file system under [create] *)

Lemma files_insert_dir (fs : FS) (p : Path) :
  fs !! p = None -> Fs.files (<[p := Dir]> fs) = Fs.files fs.
Proof.
  intros Hp. unfold Fs.files.
  rewrite omap_insert_None by done.
  apply delete_id. by rewrite lookup_omap, Hp.
Qed.

(** Making directories leaves every regular file as it is. *)
Lemma mkdir_from_files (rest : list string) (prefix : Path) (fs fs' : FS)
    (r : result unit) :
  Fs.mkdir_from prefix rest fs = (r, fs') -> Fs.files fs' = Fs.files fs.
Proof.
  revert prefix fs. induction rest as [|c rest IH]; intros prefix fs Hmk.
  - simpl in Hmk. by simplify_eq.
  - cbn [Fs.mkdir_from] in Hmk. destruct rest as [|c' rest].
    + destruct (fs !! (prefix ++ [c])) eqn:E; simplify_eq; [done|].
      by apply files_insert_dir.
    + destruct (fs !! (prefix ++ [c])) as [[|contents]|] eqn:E.
      * by apply IH in Hmk.
      * by simplify_eq.
      * apply IH in Hmk. rewrite Hmk. by apply files_insert_dir.
Qed.

Lemma mkdir_parents_files (p : Path) (fs fs' : FS) (r : result unit) :
  Fs.mkdir_parents p fs = (r, fs') -> Fs.files fs' = Fs.files fs.
Proof.
  unfold Fs.mkdir_parents. destruct (fs !! p); intros Hmk.
  - by simplify_eq.
  - by apply mkdir_from_files in Hmk.
Qed.

Section Lifecycle.
Context `{Platform}.

(** The argument bag is always there. *)
Lemma create_all_arguments_ok (self : LiberoProject.t) (kw : kwargs) :
  exists args, LiberoProject.create_all_arguments self kw = Ok args.
Proof.
  unfold LiberoProject.create_all_arguments.
  destruct (LiberoProject.other_arguments self); simpl; eauto.
Qed.

(** A part with fewer than three segments stops [LiberoTcl.create] at
    the decomposition. *)
Lemma create_part_malformed (part : string) :
  length (Str.split "-" part) < 3 ->
  LiberoTcl.create_part part = Raise (IndexError "list index out of range").
Proof.
  intros Hlen. unfold LiberoTcl.create_part.
  destruct (Str.split "-" part) as [|d [|s [|p rest]]]; simpl in *;
    [done | done | done | lia].
Qed.

(** C3, as the code has it.  When the [pre_create] hook returns a falsy
    result, [create] returns the failure result without raising and
    touches nothing itself: the file system is as the hook left it, so no
    script is written and no project directory is made. *)
Theorem create_hook_declined (self : LiberoProject.t) (project_path : Path)
    (ip_cache_path : option Path) (other_arguments args : kwargs)
    (fs fs' : FS)
    (Hargs : LiberoProject.create_all_arguments self other_arguments
             = Ok args)
    (Hhook : LiberoProject.call_pre_create self project_path ip_cache_path
               args fs = (Ok false, fs')) :
  LiberoProject.create self project_path ip_cache_path other_arguments fs
  = (Ok false, fs').
Proof.
  unfold LiberoProject.create, bind, lift. rewrite Hargs.
  by rewrite Hhook.
Qed.

(** C7, as the code has it.  The folder is looked at in [_create_tcl],
    after the hook.  A call of [_create_tcl] on a project path that exists
    raises the [ValueError] "Folder already exists" and leaves the file
    system, and so a script of an earlier call, as it is; a [create] call
    whose hook has returned a truthy result, the project path existing
    then, fails the same way and leaves the file system as the hook left
    it. *)
Theorem create_existing_folder (self : LiberoProject.t) (project_path : Path)
    (ip_cache_path : option Path) (fs : FS)
    (Hexists : Fs.exists_ project_path fs = (Ok true, fs)) :
  (forall all_arguments,
      LiberoProject._create_tcl self project_path ip_cache_path all_arguments
        fs
      = (Raise (ValueError ("Folder already exists: "
                              +:+ PurePath.str project_path)), fs))
  /\ (forall other_arguments args fs0,
        LiberoProject.create_all_arguments self other_arguments = Ok args ->
        LiberoProject.call_pre_create self project_path ip_cache_path args fs0
        = (Ok true, fs) ->
        LiberoProject.create self project_path ip_cache_path other_arguments
          fs0
        = (Raise (ValueError ("Folder already exists: "
                                +:+ PurePath.str project_path)), fs)).
Proof.
  assert (forall all_arguments,
             LiberoProject._create_tcl self project_path ip_cache_path
               all_arguments fs
             = (Raise (ValueError ("Folder already exists: "
                                     +:+ PurePath.str project_path)), fs))
    as Htcl.
  { intros. unfold LiberoProject._create_tcl, bind. by rewrite Hexists. }
  split; [done|].
  intros other_arguments args fs0 Hargs Hhook.
  unfold LiberoProject.create, bind, lift. rewrite Hargs, Hhook.
  fold (@bind Path bool). unfold bind. by rewrite Htcl.
Qed.

(** With a malformed part [_create_tcl] never returns and never writes a
    regular file; on a free path that can be made it raises the
    [IndexError]. *)
Lemma create_tcl_malformed_part (self : LiberoProject.t) (project_path : Path)
    (ip_cache_path : option Path) (args : option kwargs) (fs : FS) :
  length (Str.split "-" (LiberoProject.part self)) < 3 ->
  exists e fs',
    LiberoProject._create_tcl self project_path ip_cache_path args fs
    = (Raise e, fs')
    /\ Fs.files fs' = Fs.files fs
    /\ (Fs.exists_ project_path fs = (Ok false, fs) ->
        Fs.mkdir_parents project_path fs = (Ok (), fs') ->
        e = IndexError "list index out of range").
Proof.
  intros Hpart.
  unfold LiberoProject._create_tcl, bind, lift, raise.
  unfold Fs.exists_ at 1.
  set (present := match project_path with
                  | [] => true
                  | _ => bool_decide (is_Some (fs !! project_path))
                  end).
  assert (Fs.exists_ project_path fs = (Ok present, fs)) as Hexists
    by reflexivity.
  destruct present.
  - eexists _, fs. split; [done|]. split; [done|].
    intros Hfree. rewrite Hexists in Hfree. discriminate.
  - destruct (Fs.mkdir_parents project_path fs) as [[[]|e] fs'] eqn:Hmkdir.
    + unfold LiberoTcl.create. rewrite create_part_malformed by done.
      eexists _, fs'. split; [done|].
      split; [by eapply mkdir_parents_files | done].
    + eexists e, fs'. split; [done|].
      split; [by eapply mkdir_parents_files|].
      intros _ Hok. discriminate.
Qed.

(** C8.  For a part with fewer than three dash-separated segments,
    [LiberoTcl.create] raises the [IndexError] of the decomposition
    whatever its other arguments.  [_create_tcl] therefore never returns,
    and neither does a [create] call whose hook has accepted; the regular
    files stay as they were, so the failure comes before any file is
    written.  When the project path was free and has been made, the error
    is the [IndexError]. *)
Theorem create_malformed_part (self : LiberoProject.t) (project_path : Path)
    (ip_cache_path : option Path)
    (Hpart : length (Str.split "-" (LiberoProject.part self)) < 3) :
  (forall tcl project_folder modules family top run_index generics
          constraints tcl_sources build_step_hooks ip_cache
          disable_io_buffers ip_cores_only kw,
      LiberoTcl.create tcl project_folder modules (LiberoProject.part self)
        family top run_index generics constraints tcl_sources
        build_step_hooks ip_cache disable_io_buffers ip_cores_only kw
      = Raise (IndexError "list index out of range"))
  /\ (forall all_arguments fs,
        exists e fs',
          LiberoProject._create_tcl self project_path ip_cache_path
            all_arguments fs
          = (Raise e, fs')
          /\ Fs.files fs' = Fs.files fs
          /\ (Fs.exists_ project_path fs = (Ok false, fs) ->
              Fs.mkdir_parents project_path fs = (Ok (), fs') ->
              e = IndexError "list index out of range"))
  /\ (forall other_arguments args fs fs1,
        LiberoProject.create_all_arguments self other_arguments = Ok args ->
        LiberoProject.call_pre_create self project_path ip_cache_path args fs
        = (Ok true, fs1) ->
        exists e fs2,
          LiberoProject.create self project_path ip_cache_path
            other_arguments fs
          = (Raise e, fs2)
          /\ Fs.files fs2 = Fs.files fs1
          /\ (Fs.exists_ project_path fs1 = (Ok false, fs1) ->
              Fs.mkdir_parents project_path fs1 = (Ok (), fs2) ->
              e = IndexError "list index out of range")).
Proof.
  split; [|split].
  - intros. unfold LiberoTcl.create. by rewrite create_part_malformed.
  - intros. by apply create_tcl_malformed_part.
  - intros other_arguments args fs fs1 Hargs Hhook.
    destruct (create_tcl_malformed_part self project_path ip_cache_path
                (Some args) fs1 Hpart) as (e & fs2 & Htcl & Hfiles & Herr).
    exists e, fs2. split; [|done].
    unfold LiberoProject.create, bind, lift. rewrite Hargs, Hhook.
    fold (@bind Path bool). unfold bind. by rewrite Htcl.
Qed.
End Lifecycle.

Lemma create_hook_declined_witness :
  LiberoProject.create (H:=Examples.platform)
    (LiberoProject.override_pre_create
       (Examples.project "M2S010-1-VF400" [Examples.pins_pdc]) Examples.decline)
    Examples.project_path None [] Examples.built
  = (Ok false, Examples.built).
Proof.
  apply (create_hook_declined (H:=Examples.platform) _ _ _ _
           [("generics", PyGenerics []);
            ("part", PyValue (GStr "M2S010-1-VF400"))]).
  - reflexivity.
  - reflexivity.
Defined.

(** C3 as stated fails: after a declined call on an empty file system the
    project directory does not exist. *)
Lemma hook_declined_counterexample :
  exists fs' : FS,
    LiberoProject.create (H:=Examples.platform)
      (LiberoProject.override_pre_create
         (Examples.project "M2S010-1-VF400" []) Examples.decline)
      Examples.project_path None [] ∅
    = (Ok false, fs')
    /\ Fs.exists_ Examples.project_path fs' = (Ok false, fs').
Proof. exists ∅. split; reflexivity. Qed.

Lemma create_existing_folder_witness :
  Fs.exists_ Examples.project_path Examples.built = (Ok true, Examples.built)
  /\ LiberoProject.create (H:=Examples.platform)
       (Examples.project "M2S010-1-VF400" [Examples.pins_pdc])
       Examples.project_path None [] Examples.built
     = (Raise (ValueError "Folder already exists: /build/artyz7"),
        Examples.built).
Proof.
  assert (Fs.exists_ Examples.project_path Examples.built
          = (Ok true, Examples.built)) as Hexists by (vm_compute; reflexivity).
  split; [exact Hexists|].
  refine (proj2 (create_existing_folder (H:=Examples.platform)
                   (Examples.project "M2S010-1-VF400" [Examples.pins_pdc])
                   Examples.project_path None Examples.built Hexists)
            []
            [("generics", PyGenerics []);
             ("part", PyValue (GStr "M2S010-1-VF400"))]
            Examples.built _ _);
    reflexivity.
Defined.

(** C7 as stated fails: the hook is asked before the folder is looked
    at.  When it declines, a call on an existing project path returns the
    failure result and raises no [ValueError]. *)
Lemma existing_folder_counterexample :
  Fs.exists_ Examples.project_path Examples.built = (Ok true, Examples.built)
  /\ LiberoProject.create (H:=Examples.platform)
       (LiberoProject.override_pre_create
          (Examples.project "M2S010-1-VF400" []) Examples.decline)
       Examples.project_path None [] Examples.built
     = (Ok false, Examples.built)
  /\ forall msg,
       fst (LiberoProject.create (H:=Examples.platform)
              (LiberoProject.override_pre_create
                 (Examples.project "M2S010-1-VF400" []) Examples.decline)
              Examples.project_path None [] Examples.built)
       <> Raise (ValueError msg).
Proof.
  split; [vm_compute; reflexivity|]. split; [reflexivity | discriminate].
Qed.

Lemma create_malformed_part_witness :
  length (Str.split "-" "xc7z020clg400-1") < 3
  /\ exists fs2 : FS,
       LiberoProject.create (H:=Examples.platform)
         (Examples.project "xc7z020clg400-1" [Examples.pins_pdc])
         Examples.project_path None [] ∅
       = (Raise (IndexError "list index out of range"), fs2)
       /\ Fs.files fs2 = Fs.files ∅.
Proof.
  assert (length (Str.split "-" "xc7z020clg400-1") < 3) as Hpart
    by (vm_compute; lia).
  split; [exact Hpart|].
  destruct (proj2 (proj2 (create_malformed_part (H:=Examples.platform)
                     (Examples.project "xc7z020clg400-1" [Examples.pins_pdc])
                     Examples.project_path None Hpart))
              []
              [("generics", PyGenerics []);
               ("part", PyValue (GStr "xc7z020clg400-1"))]
              ∅ ∅ eq_refl eq_refl)
    as (e & fs2 & Hcreate & Hfiles & _).
  exists fs2. split; [|exact Hfiles].
  rewrite Hcreate. vm_compute in Hcreate.
  injection Hcreate as <- _. reflexivity.
Defined.

(** ** What the script depends on *)

(** Modules that give the same files for two bags give the same
    statements. *)
Lemma module_statements_same_files `{Platform} (top : string)
    (project_folder : Path) (kw kw' : kwargs) (modules : list BaseModule.t) :
  Forall (fun m => same_files m kw kw') modules ->
  statements (module_statements top project_folder kw) modules
  = statements (module_statements top project_folder kw') modules.
Proof.
  induction 1 as [|m modules [Hfiles Hcores] _ IH]; [done|].
  cbn [statements foldr]. unfold statements in IH. rewrite IH.
  unfold module_statements. by rewrite Hfiles, Hcores.
Qed.

(** C10, as the code has it.  [LiberoTcl.create] reads nothing of the
    generics, the TCL sources, the build step hooks, the run index and the
    IP cache path: for one argument bag it gives the same result for any
    two choices of them, namely the template filled with the segments of
    the part and with the statements of the modules and constraints, and
    [_create_tcl] does the same on two objects that differ in nothing
    else.  [LiberoProject.create] copies the generics into the argument
    bag and hands the bag and the IP cache path to the hook: two [create]
    calls that differ only in these values do the same when the hook
    answers the two calls alike and every module gives the same files for
    the two bags. *)
Theorem script_independent_of_unused `{Platform} (tcl : LiberoTcl.t)
    (project_folder : Path) (modules : list BaseModule.t)
    (part family top : string) (constraints : list Constraint.t)
    (disable_io_buffers ip_cores_only : bool) (kw : option kwargs)
    (run_index run_index' : Z)
    (generics generics' : option (dict generic_value))
    (tcl_sources tcl_sources' : option (list Path))
    (build_step_hooks build_step_hooks' : option (list BuildStepTclHook.t))
    (ip_cache_path ip_cache_path' : option Path)
    (self : LiberoProject.t) (project_path : Path) (fs : FS)
    (static_generics : dict generic_value) (sources : list Path)
    (hooks : list BuildStepTclHook.t) :
  LiberoTcl.create tcl project_folder modules part family top run_index
    generics (Some constraints) tcl_sources build_step_hooks ip_cache_path
    disable_io_buffers ip_cores_only kw
  = LiberoTcl.create tcl project_folder modules part family top run_index'
      generics' (Some constraints) tcl_sources' build_step_hooks'
      ip_cache_path' disable_io_buffers ip_cores_only kw
  /\ LiberoTcl.create tcl project_folder modules part family top run_index
       generics (Some constraints) tcl_sources build_step_hooks ip_cache_path
       disable_io_buffers ip_cores_only kw
     = (let* segments := LiberoTcl.create_part part in
        Ok (LiberoTcl.create_template tcl project_folder part family top
              (LiberoTcl.device segments) (LiberoTcl.package segments)
              (LiberoTcl.speed segments) (LiberoTcl.temp_range segments)
              (statements
                 (module_statements top project_folder (default [] kw))
                 (LiberoTcl.create_sort_modules top modules)
               +:+ statements (plain_registration project_folder)
                     constraints)))
  /\ LiberoProject._create_tcl
       (LiberoProject.with_unused self static_generics sources hooks
          run_index)
       project_path ip_cache_path kw fs
     = LiberoProject._create_tcl self project_path ip_cache_path' kw fs
  /\ (forall other_arguments args args',
        let self' :=
          LiberoProject.with_unused self static_generics sources hooks
            run_index in
        LiberoProject.create_all_arguments self other_arguments = Ok args ->
        LiberoProject.create_all_arguments self' other_arguments = Ok args' ->
        LiberoProject.call_pre_create self' project_path ip_cache_path args'
          fs
        = LiberoProject.call_pre_create self project_path ip_cache_path' args
            fs ->
        Forall (fun m => same_files m args' args)
          (LiberoProject.modules self) ->
        LiberoProject.create self' project_path ip_cache_path other_arguments
          fs
        = LiberoProject.create self project_path ip_cache_path'
            other_arguments fs).
Proof.
  split; [reflexivity|]. split; [|split; [reflexivity|]].
  { unfold LiberoTcl.create.
    destruct (LiberoTcl.create_part part) as [segments|e]; simpl; [|done].
    by rewrite create_fpga_files_text. }
  intros other_arguments args args' self' Hargs Hargs' Hhook Hmodules.
  assert (forall ip ip' fs1,
             LiberoProject._create_tcl self' project_path ip (Some args') fs1
             = LiberoProject._create_tcl self project_path ip' (Some args) fs1)
    as Htcl.
  { intros ip ip' fs1.
    unfold LiberoProject._create_tcl, self', LiberoProject.with_unused.
    cbn [LiberoProject.tcl LiberoProject.modules LiberoProject.part
         LiberoProject.family LiberoProject.top LiberoProject.constraints
         LiberoProject.is_netlist_build LiberoProject.ip_cores_only
         LiberoProject.default_run_index LiberoProject.static_generics
         LiberoProject.tcl_sources LiberoProject.build_step_hooks].
    unfold LiberoTcl.create. rewrite !create_fpga_files_text.
    cbn [default].
    rewrite (module_statements_same_files _ _ args' args); [done|].
    unfold LiberoTcl.create_sort_modules.
    rewrite sort_reverse_Permutation. exact Hmodules. }
  unfold LiberoProject.create, bind, lift.
  rewrite Hargs, Hargs', Hhook.
  destruct (LiberoProject.call_pre_create self project_path ip_cache_path'
              args fs) as [[[|]|e] fs1]; [|done|done].
  fold (@bind Path bool). unfold bind.
  by rewrite (Htcl ip_cache_path ip_cache_path').
Qed.

Lemma script_independent_of_unused_witness :
  LiberoProject.create (H:=Examples.platform)
    (LiberoProject.with_unused
       (Examples.project_of [Examples.math_module] [])
       [("width", GInt 8)] [["work"; "tcl"; "block_design.tcl"]] [] 2%Z)
    Examples.project_path (Some ["cache"]) [] ∅
  = LiberoProject.create (H:=Examples.platform)
      (Examples.project_of [Examples.math_module] [])
      Examples.project_path None [] ∅.
Proof.
  refine (proj2 (proj2 (proj2
            (script_independent_of_unused (H:=Examples.platform)
               {| LiberoTcl.name := "artyz7" |} Examples.project_path []
               "M2S010-1-VF400" "SmartFusion2" "top_artyz7" [] true false
               None 2%Z 1%Z None None None None None None
               (Some ["cache"]) None
               (Examples.project_of [Examples.math_module] [])
               Examples.project_path ∅
               [("width", GInt 8)] [["work"; "tcl"; "block_design.tcl"]] [])))
            []
            [("generics", PyGenerics []);
             ("part", PyValue (GStr "M2S010-1-VF400"))]
            [("generics", PyGenerics [("width", GInt 8)]);
             ("part", PyValue (GStr "M2S010-1-VF400"))]
            eq_refl eq_refl eq_refl _).
  repeat constructor.
Defined.

(** C10 as stated fails: the generics of the object are in the argument
    bag that the modules receive.  Two objects that differ only in their
    generics, with a module that adds a file when the generics hold
    [with_debug], give two different scripts. *)
Lemma generics_reach_script_counterexample :
  Examples.project_of [Examples.debug_module] [("with_debug", GBool true)]
  = LiberoProject.with_unused (Examples.project_of [Examples.debug_module] [])
      [("with_debug", GBool true)] [] [] 1%Z
  /\ exists text text',
       snd (LiberoProject.create (H:=Examples.platform)
              (Examples.project_of [Examples.debug_module]
                 [("with_debug", GBool true)])
              Examples.project_path None [] ∅) !! Examples.script_path
       = Some (File text)
       /\ snd (LiberoProject.create (H:=Examples.platform)
                 (Examples.project_of [Examples.debug_module] [])
                 Examples.project_path None [] ∅) !! Examples.script_path
          = Some (File text')
       /\ Str.contains "fpga_file {../../work/debug/probe.vhd} debug" text
          = true
       /\ Str.contains "fpga_file {../../work/debug/probe.vhd} debug" text'
          = false
       /\ text <> text'.
Proof.
  split; [reflexivity|].
  eexists _, _.
  split; [vm_compute; reflexivity|].
  split; [vm_compute; reflexivity|].
  split; [vm_compute; reflexivity|].
  split; [vm_compute; reflexivity|].
  intros Heq.
  apply (f_equal
           (Str.contains "fpga_file {../../work/debug/probe.vhd} debug"))
    in Heq.
  vm_compute in Heq. discriminate.
Qed.

(** * Further properties *)

(** ** Dictionaries *)

Lemma filter_ext_elem {A} (P Q : A -> Prop) `{!forall x, Decision (P x)}
    `{!forall x, Decision (Q x)} (l : list A) :
  (forall x, x ∈ l -> P x <-> Q x) -> filter P l = filter Q l.
Proof.
  induction l as [|x l IH]; intros Hext; [done|].
  rewrite !filter_cons.
  rewrite IH by (intros y Hy; apply Hext; by right).
  destruct (decide (P x)) as [HP|HP], (decide (Q x)) as [HQ|HQ]; try done;
    exfalso; apply (Hext x) in HP || apply (Hext x) in HQ; try done; by left.
Qed.

Section DictFacts.
Context {V : Type}.
Implicit Types (d other : dict V) (k : string) (v : V).

Lemma dict_get_None k d : Dict.get k d = None <-> k ∉ Dict.keys d.
Proof.
  induction d as [|[k' v'] d IH]; simpl.
  - split; [intros _; apply not_elem_of_nil | done].
  - destruct (String.eqb_spec k' k) as [->|Hne].
    + split; [done|]. intros Hk. exfalso. apply Hk. left.
    + rewrite IH. rewrite not_elem_of_cons. split; [by intros ? | tauto].
Qed.

Lemma dict_has_key k d : Dict.has_key k d = true <-> k ∈ Dict.keys d.
Proof.
  induction d as [|[k' v'] d IH]; simpl.
  - split; [done | by intros ?%elem_of_nil].
  - rewrite elem_of_cons, orb_true_iff, IH, String.eqb_eq.
    split; (intros [?|?]; [left; congruence | by right]).
Qed.

Lemma dict_get_set_eq k v d : Dict.get k (Dict.set k v d) = Some v.
Proof.
  induction d as [|[k' v'] d IH]; simpl.
  - by rewrite String.eqb_refl.
  - destruct (String.eqb_spec k' k) as [->|Hne]; simpl.
    + by rewrite String.eqb_refl.
    + by destruct (String.eqb_spec k' k).
Qed.

Lemma dict_get_set_ne k k' v d :
  k <> k' -> Dict.get k' (Dict.set k v d) = Dict.get k' d.
Proof.
  intros Hne. induction d as [|[k0 v0] d IH]; simpl.
  - by destruct (String.eqb_spec k k').
  - destruct (String.eqb_spec k0 k) as [->|Hne0]; simpl.
    + destruct (String.eqb_spec k k'); done.
    + by rewrite IH.
Qed.

Lemma dict_keys_set k v d :
  Dict.keys (Dict.set k v d)
  = if Dict.has_key k d then Dict.keys d else Dict.keys d ++ [k].
Proof.
  induction d as [|[k' v'] d IH]; simpl; [done|].
  destruct (String.eqb_spec k' k) as [->|Hne]; simpl; [done|].
  unfold Dict.keys in *. rewrite IH. by destruct (Dict.has_key k d).
Qed.

Lemma dict_set_NoDup k v d :
  NoDup (Dict.keys d) -> NoDup (Dict.keys (Dict.set k v d)).
Proof.
  intros Hd. rewrite dict_keys_set.
  destruct (Dict.has_key k d) eqn:E; [done|].
  apply NoDup_app. split; [done|]. split; [|apply NoDup_singleton].
  intros x Hx ->%list_elem_of_singleton.
  apply dict_has_key in Hx. congruence.
Qed.

Lemma dict_get_update d other k :
  NoDup (Dict.keys other) ->
  Dict.get k (Dict.update d other)
  = match Dict.get k other with
    | Some v => Some v
    | None => Dict.get k d
    end.
Proof.
  unfold Dict.update. revert d.
  induction other as [|[k1 v1] other IH]; intros d Hnd; simpl; [done|].
  apply NoDup_cons in Hnd as [Hk1 Hnd]. rewrite IH by done. simpl in *.
  destruct (String.eqb_spec k1 k) as [->|Hne].
  - apply dict_get_None in Hk1. rewrite Hk1. apply dict_get_set_eq.
  - by rewrite dict_get_set_ne.
Qed.

Lemma dict_keys_update d other :
  NoDup (Dict.keys other) ->
  Dict.keys (Dict.update d other)
  = Dict.keys d ++ filter (fun k => k ∉ Dict.keys d) (Dict.keys other).
Proof.
  unfold Dict.update. revert d.
  induction other as [|[k1 v1] other IH]; intros d Hnd; simpl.
  - by rewrite app_nil_r.
  - apply NoDup_cons in Hnd as [Hk1 Hnd]. rewrite IH by done. simpl in *.
    rewrite dict_keys_set, filter_cons.
    destruct (Dict.has_key k1 d) eqn:E.
    + apply dict_has_key in E. by rewrite decide_False by tauto.
    + assert (k1 ∉ Dict.keys d) as Hk1d.
      { intros Hin%dict_has_key. congruence. }
      rewrite decide_True by done. rewrite <- app_assoc. simpl.
      do 2 f_equal. apply filter_ext_elem.
      intros x Hx. rewrite not_elem_of_app, not_elem_of_cons.
      split; [tauto|]. intros Hxd. split; [done|].
      split; [by intros -> | apply not_elem_of_nil].
Qed.

Lemma dict_update_NoDup d other :
  NoDup (Dict.keys d) -> NoDup (Dict.keys (Dict.update d other)).
Proof.
  unfold Dict.update. revert d.
  induction other as [|[k1 v1] other IH]; intros d Hd; simpl; [done|].
  apply IH. by apply dict_set_NoDup.
Qed.
End DictFacts.

(** ** Combining the argument bags *)

(** [copy_and_combine_dicts] gives [None] only for two [None]s, and what it
    gives holds, for every key, the value of the second dictionary when
    the key is there and that of the first otherwise. *)
Theorem copy_and_combine_dicts_prefers_second {V}
    (dict_first dict_second : option (dict V)) (k : string)
    (Hsecond : forall d, dict_second = Some d -> NoDup (Dict.keys d)) :
  (copy_and_combine_dicts dict_first dict_second = None
   <-> dict_first = None /\ dict_second = None)
  /\ copy_and_combine_dicts dict_first dict_second ≫= Dict.get k
     = match dict_second ≫= Dict.get k with
       | Some v => Some v
       | None => dict_first ≫= Dict.get k
       end.
Proof.
  destruct dict_first as [first|], dict_second as [second|]; simpl.
  - split; [split; [done | by intros [? _]]|].
    apply dict_get_update. by apply Hsecond.
  - split; [split; [done | by intros [? _]]|]. done.
  - split; [split; [done | by intros [_ ?]]|].
    by destruct (Dict.get k second).
  - done.
Qed.

Lemma copy_and_combine_dicts_prefers_second_witness :
  NoDup (Dict.keys [("num_lanes", 4)])
  /\ copy_and_combine_dicts (Some [("clock", 100); ("num_lanes", 2)])
       (Some [("num_lanes", 4)]) ≫= Dict.get "num_lanes"
     = Some 4.
Proof.
  assert (NoDup (Dict.keys [("num_lanes", 4)])) as Hnd
    by (apply NoDup_singleton).
  split; [exact Hnd|].
  refine (proj2 (copy_and_combine_dicts_prefers_second
                   (Some [("clock", 100); ("num_lanes", 2)])
                   (Some [("num_lanes", 4)]) "num_lanes" _)).
  intros d [= <-]. exact Hnd.
Defined.

(** The combined dictionary keeps the insertion order: first the keys of
    the first dictionary in their places, then the new keys of the second
    in its order; no key comes twice. *)
Theorem copy_and_combine_dicts_keeps_order {V} (first second : dict V)
    (Hfirst : NoDup (Dict.keys first)) (Hsecond : NoDup (Dict.keys second)) :
  exists d,
    copy_and_combine_dicts (Some first) (Some second) = Some d
    /\ Dict.keys d
       = Dict.keys first
           ++ filter (fun k => k ∉ Dict.keys first) (Dict.keys second)
    /\ NoDup (Dict.keys d).
Proof.
  eexists. split; [reflexivity|]. split.
  - by apply dict_keys_update.
  - by apply dict_update_NoDup.
Qed.

Lemma copy_and_combine_dicts_keeps_order_witness :
  exists d,
    copy_and_combine_dicts (Some [("clock", 100); ("num_lanes", 2)])
      (Some [("width", 8); ("clock", 125)]) = Some d
    /\ Dict.keys d = ["clock"; "num_lanes"; "width"].
Proof.
  assert (NoDup (Dict.keys [("clock", 100); ("num_lanes", 2)])) as H1.
  { apply NoDup_cons. split; [|apply NoDup_singleton].
    by intros [= ]%list_elem_of_singleton. }
  assert (NoDup (Dict.keys [("width", 8); ("clock", 125)])) as H2.
  { apply NoDup_cons. split; [|apply NoDup_singleton].
    by intros [= ]%list_elem_of_singleton. }
  destruct (copy_and_combine_dicts_keeps_order _ _ H1 H2)
    as (d & Hd & Hkeys & _).
  exists d. split; [exact Hd|]. rewrite Hkeys. reflexivity.
Defined.

(** The bag that [create] hands to the hook and to the modules always
    exists; its [generics] and [part] are those of the object, whatever
    the caller passed under these names, and for any other key the value
    of the call comes before that of the construction. *)
Theorem create_all_arguments_entries (self : LiberoProject.t)
    (other_arguments : kwargs) (k : string)
    (Hkw : NoDup (Dict.keys other_arguments)) :
  exists args,
    LiberoProject.create_all_arguments self other_arguments = Ok args
    /\ Dict.get "generics" args
       = Some (PyGenerics (LiberoProject.static_generics self))
    /\ Dict.get "part" args
       = Some (PyValue (GStr (LiberoProject.part self)))
    /\ (k <> "generics" -> k <> "part" ->
        Dict.get k args
        = match Dict.get k other_arguments with
          | Some v => Some v
          | None => LiberoProject.other_arguments self ≫= Dict.get k
          end).
Proof.
  assert (NoDup (Dict.keys
            [("generics", PyGenerics (LiberoProject.static_generics self));
             ("part", PyValue (GStr (LiberoProject.part self)))])) as Hnd.
  { apply NoDup_cons. split; [|apply NoDup_singleton].
    by intros [= ]%list_elem_of_singleton. }
  unfold LiberoProject.create_all_arguments.
  destruct (LiberoProject.other_arguments self) as [first|];
    unfold copy_and_combine_dicts;
    eexists; (split; [reflexivity|]);
    rewrite !(dict_get_update _ _ _ Hnd);
    (split; [done|]); (split; [done|]); intros Hg Hp;
    cbn [Dict.get];
    destruct (String.eqb_spec "generics" k); try congruence;
    destruct (String.eqb_spec "part" k); try congruence.
  - by rewrite dict_get_update.
  - by destruct (Dict.get k other_arguments).
Qed.

Lemma create_all_arguments_entries_witness :
  exists args,
    LiberoProject.create_all_arguments
      (Examples.project "M2S010-1-VF400" [])
      [("part", PyValue (GStr "other")); ("flavour", PyValue (GBool true))]
    = Ok args
    /\ Dict.get "part" args = Some (PyValue (GStr "M2S010-1-VF400"))
    /\ Dict.get "flavour" args = Some (PyValue (GBool true)).
Proof.
  assert (NoDup (Dict.keys
            [("part", PyValue (GStr "other"));
             ("flavour", PyValue (GBool true))])) as Hnd.
  { apply NoDup_cons. split; [|apply NoDup_singleton].
    by intros [= ]%list_elem_of_singleton. }
  destruct (create_all_arguments_entries
              (Examples.project "M2S010-1-VF400" []) _ "flavour" Hnd)
    as (args & Hargs & _ & Hpart & Hk).
  exists args. split; [exact Hargs|]. split; [exact Hpart|].
  rewrite Hk by discriminate. reflexivity.
Defined.

(** ** The helpers of [LiberoTcl] that [create] does not use *)

Lemma insert_reverse_nonempty {A K} (ltb : K -> K -> bool) (key : A -> K)
    (x : A) (l : list A) :
  insert_reverse ltb key x l <> [].
Proof. destruct l as [|y l]; simpl; [done|]. by destruct (ltb _ _). Qed.

Lemma sort_reverse_nonempty {A K} (ltb : K -> K -> bool) (key : A -> K)
    (x : A) (l : list A) :
  sort_reverse ltb key (x :: l) <> [].
Proof. apply insert_reverse_nonempty. Qed.

Lemma fold_left_yield {A} (l acc : list A) :
  fold_left (fun yielded x => yielded ++ [x]) l acc = acc ++ l.
Proof.
  revert acc. induction l as [|x l IH]; intros acc; simpl.
  - by rewrite app_nil_r.
  - by rewrite IH, <- app_assoc.
Qed.

Section Helpers.
Context `{Platform}.

Lemma add_module_source_files_loop self_top other_arguments modules tcl :
  for_each (LiberoTcl._add_module_source_files_module self_top other_arguments)
    modules tcl
  = if forallb
         (fun m =>
            bool_decide (BaseModule.get_synthesis_files m other_arguments = []))
         modules
    then Ok tcl
    else match self_top with
         | None =>
             Raise (AttributeError "'LiberoTcl' object has no attribute 'top'")
         | Some _ =>
             Raise (TypeError
               "to_tcl_path() missing 1 required positional argument: 'project_folder'")
         end.
Proof.
  revert tcl. induction modules as [|m modules IH]; intros tcl; [done|].
  cbn [for_each forallb].
  unfold LiberoTcl._add_module_source_files_module at 1.
  destruct (BaseModule.get_synthesis_files m other_arguments)
    as [|f files] eqn:E.
  - simpl. apply IH.
  - rewrite bool_decide_eq_false_2 by done. simpl andb. cbv iota.
    destruct self_top as [top|]; [|done].
    pose proof (sort_reverse_nonempty bool_ltb
                  (fun name =>
                     String.eqb (PurePath.stem (HdlFile.path name)) top)
                  f files) as Hne.
    destruct (sort_reverse _ _ (f :: files)) as [|g sorted]; [done|].
    reflexivity.
Qed.

(** [_add_tcl_sources] and [_add_module_source_files] return a text only
    when they have nothing to write.  [_add_tcl_sources] gives the empty
    text for [None] and for the empty list; [_add_module_source_files]
    gives it when no module has a source file.  As soon as there is one
    TCL source the call of [to_tcl_path] with the path alone raises
    [TypeError]; as soon as one module has a source file,
    [_add_module_source_files] raises too: [AttributeError] on an object
    whose [top] is not set, because [create] has not run on it, and that
    [TypeError] otherwise. *)
Theorem unused_helpers_do_not_bind (self_top : option string)
    (modules : list BaseModule.t) (other_arguments : kwargs)
    (tcl_source_file : Path) (tcl_sources : list Path) :
  LiberoTcl._add_tcl_sources None = Ok ""
  /\ LiberoTcl._add_tcl_sources (Some []) = Ok ""
  /\ LiberoTcl._add_tcl_sources (Some (tcl_source_file :: tcl_sources))
     = Raise (TypeError
         "to_tcl_path() missing 1 required positional argument: 'project_folder'")
  /\ LiberoTcl._add_module_source_files self_top modules other_arguments
     = if forallb
            (fun m =>
               bool_decide
                 (BaseModule.get_synthesis_files m other_arguments = []))
            modules
       then Ok ""
       else match self_top with
            | None =>
                Raise (AttributeError
                  "'LiberoTcl' object has no attribute 'top'")
            | Some _ =>
                Raise (TypeError
                  "to_tcl_path() missing 1 required positional argument: 'project_folder'")
            end.
Proof.
  repeat split; try reflexivity.
  apply add_module_source_files_loop.
Qed.
End Helpers.

(** [_iterate_constraints] yields the scoped constraints of the modules,
    module after module, and then the project constraints; [None] for the
    project constraints yields none of them. *)
Theorem iterate_constraints_order (modules : list BaseModule.t)
    (constraints : option (list Constraint.t)) (other_arguments : kwargs) :
  LiberoTcl._iterate_constraints modules constraints other_arguments
  = concat (map (fun m => BaseModule.get_scoped_constraints m other_arguments)
              modules)
      ++ default [] constraints.
Proof.
  unfold LiberoTcl._iterate_constraints.
  assert (forall acc,
             fold_left
               (fun yielded module =>
                  fold_left (fun yielded constraint => yielded ++ [constraint])
                    (BaseModule.get_scoped_constraints module other_arguments)
                    yielded)
               modules acc
             = acc ++ concat (map (fun m =>
                                     BaseModule.get_scoped_constraints m
                                       other_arguments) modules)) as Hloop.
  { induction modules as [|m modules IH]; intros acc; simpl.
    - by rewrite app_nil_r.
    - by rewrite IH, fold_left_yield, <- app_assoc. }
  rewrite Hloop. simpl.
  destruct constraints as [constraints|]; simpl.
  - apply fold_left_yield.
  - by rewrite app_nil_r.
Qed.

(** ** When the assembler succeeds *)

Lemma create_part_ok (part : string) :
  3 <= length (Str.split "-" part) ->
  exists segments, LiberoTcl.create_part part = Ok segments.
Proof.
  intros Hlen. unfold LiberoTcl.create_part.
  destruct (Str.split "-" part) as [|d [|s [|p [|t rest]]]]; simpl in *;
    try lia; eauto.
Qed.

Section Success.
Context `{Platform}.

(** Called without constraints, as its signature allows, [LiberoTcl.create]
    raises [TypeError] for every part that can be decomposed: the default
    [None] is iterated after the modules have been written. *)
Theorem create_without_constraints (self : LiberoTcl.t) (project_folder : Path)
    (modules : list BaseModule.t) (part family top : string) (run_index : Z)
    (generics : option (dict generic_value))
    (tcl_sources : option (list Path))
    (build_step_hooks : option (list BuildStepTclHook.t))
    (ip_cache_path : option Path) (disable_io_buffers ip_cores_only : bool)
    (other_arguments : option kwargs)
    (Hpart : 3 <= length (Str.split "-" part)) :
  LiberoTcl.create self project_folder modules part family top run_index
    generics None tcl_sources build_step_hooks ip_cache_path
    disable_io_buffers ip_cores_only other_arguments
  = Raise (TypeError "'NoneType' object is not iterable").
Proof.
  unfold LiberoTcl.create.
  destruct (create_part_ok part Hpart) as [segments ->]. simpl.
  unfold LiberoTcl.create_fpga_files.
  by rewrite (for_each_append _
                (module_statements top project_folder
                   (default [] other_arguments)))
    by apply create_module_appends.
Qed.
End Success.

Lemma create_without_constraints_witness :
  3 <= length (Str.split "-" "M2S010-1-VF400")
  /\ LiberoTcl.create (H:=Examples.platform) {| LiberoTcl.name := "artyz7" |}
       Examples.project_path [] "M2S010-1-VF400" "SmartFusion2" "top_artyz7"
       1%Z None None None None None true false None
     = Raise (TypeError "'NoneType' object is not iterable").
Proof.
  assert (3 <= length (Str.split "-" "M2S010-1-VF400")) as Hpart
    by (vm_compute; lia).
  split; [exact Hpart|].
  exact (create_without_constraints (H:=Examples.platform) _ _ _ _ _ _ _ _ _
           _ _ _ _ _ Hpart).
Defined.

(** ** The order of the statements *)

Section FilterFacts.
Context {A : Type} (P : A -> Prop) `{!forall x, Decision (P x)}.

Lemma filter_all (l : list A) : Forall P l -> filter P l = l.
Proof.
  induction 1 as [|x l Hx _ IH]; [done|].
  by rewrite filter_cons_True, IH.
Qed.

Lemma filter_none (l : list A) : Forall (fun x => ~ P x) l -> filter P l = [].
Proof.
  induction 1 as [|x l Hx _ IH]; [done|].
  by rewrite filter_cons_False.
Qed.

Lemma Forall_filter_self (l : list A) : Forall P (filter P l).
Proof.
  apply Forall_forall. intros x Hx. by apply list_elem_of_filter in Hx as [? _].
Qed.
End FilterFacts.

(** Sorting a partitioned list again changes nothing. *)
Lemma stable_partition_idempotent {A} (P : A -> Prop)
    `{!forall x, Decision (P x)} (l : list A) :
  let sorted := filter P l ++ filter (fun x => ~ P x) l in
  filter P sorted ++ filter (fun x => ~ P x) sorted = sorted.
Proof.
  simpl. rewrite !filter_app.
  rewrite (filter_all P (filter P l)) by apply Forall_filter_self.
  rewrite (filter_none P (filter (fun x => ~ P x) l))
    by apply (Forall_filter_self (fun x => ~ P x)).
  rewrite (filter_none (fun x => ~ P x) (filter P l)).
  2:{ eapply Forall_impl; [apply (Forall_filter_self P)|]. tauto. }
  rewrite (filter_all (fun x => ~ P x) (filter (fun x => ~ P x) l))
    by apply (Forall_filter_self (fun x => ~ P x)).
  by rewrite app_nil_r.
Qed.

(** The sorts of [create] lose and add nothing, and sorting what is sorted
    changes nothing: [create], which sorts the module list of the object in
    place, leaves it in the same order however often it is called. *)
Theorem create_sort_idempotent (top : string) (modules : list BaseModule.t)
    (files : list HdlFile.t) :
  LiberoTcl.create_sort_modules top modules ≡ₚ modules
  /\ LiberoTcl.create_sort_modules top
       (LiberoTcl.create_sort_modules top modules)
     = LiberoTcl.create_sort_modules top modules
  /\ LiberoTcl.create_sort_files top files ≡ₚ files
  /\ LiberoTcl.create_sort_files top (LiberoTcl.create_sort_files top files)
     = LiberoTcl.create_sort_files top files.
Proof.
  assert (forall l, LiberoTcl.create_sort_modules top l
                    = filter (fun m => BaseModule.name m = top) l
                        ++ filter (fun m => BaseModule.name m <> top) l) as Hm.
  { intros l. unfold LiberoTcl.create_sort_modules.
    apply (sort_reverse_partition _ (fun m => BaseModule.name m = top)).
    intros m. apply String.eqb_eq. }
  assert (forall l, LiberoTcl.create_sort_files top l
                    = filter (fun f => PurePath.stem (HdlFile.path f) = top) l
                        ++ filter
                             (fun f => PurePath.stem (HdlFile.path f) <> top) l)
    as Hf.
  { intros l. unfold LiberoTcl.create_sort_files.
    apply (sort_reverse_partition _
             (fun f => PurePath.stem (HdlFile.path f) = top)).
    intros f. apply String.eqb_eq. }
  split; [apply sort_reverse_Permutation|].
  split.
  { rewrite (Hm (LiberoTcl.create_sort_modules top modules)), (Hm modules).
    apply (stable_partition_idempotent (fun m => BaseModule.name m = top)). }
  split; [apply sort_reverse_Permutation|].
  rewrite (Hf (LiberoTcl.create_sort_files top files)), (Hf files).
  apply (stable_partition_idempotent
           (fun f => PurePath.stem (HdlFile.path f) = top)).
Qed.

Section TopFirst.
Context `{Platform}.

(** When a module is named [top] and has a source file whose stem is
    [top], the statements that [create] writes begin with the
    registration of that file: the first such file of the first such
    module. *)
Theorem top_file_registered_first (project_folder : Path)
    (modules : list BaseModule.t) (top : string)
    (constraints : list Constraint.t) (other_arguments : kwargs)
    (m : BaseModule.t) (more_modules : list BaseModule.t)
    (f : HdlFile.t) (more_files : list HdlFile.t)
    (Hm : filter (fun m => BaseModule.name m = top) modules
          = m :: more_modules)
    (Hf : filter (fun f => PurePath.stem (HdlFile.path f) = top)
            (BaseModule.get_synthesis_files m other_arguments)
          = f :: more_files) :
  exists rest,
    LiberoTcl.create_fpga_files project_folder modules top (Some constraints)
      other_arguments
    = Ok (hdl_registration top project_folder m f +:+ rest).
Proof.
  rewrite create_fpga_files_text.
  unfold LiberoTcl.create_sort_modules.
  rewrite (sort_reverse_partition _ (fun m => BaseModule.name m = top))
    by (intros x; apply String.eqb_eq).
  rewrite Hm. cbn [app statements foldr].
  unfold module_statements at 1, LiberoTcl.create_sort_files.
  rewrite (sort_reverse_partition _
             (fun f => PurePath.stem (HdlFile.path f) = top))
    by (intros x; apply String.eqb_eq).
  rewrite Hf. cbn [app statements foldr].
  rewrite !append_assoc. eauto.
Qed.

(** A template that holds none of the placeholders is returned as it is:
    no name and no file statement gets into the script. *)
Theorem template_without_placeholders (self : LiberoTcl.t)
    (project_folder : Path)
    (part family top device package speed temp_range tcl : string)
    (Habsent : Forall (fun placeholder =>
                         Str.contains placeholder template_tcl = false)
                 template_placeholders) :
  LiberoTcl.create_template self project_folder part family top device
    package speed temp_range tcl
  = template_tcl.
Proof.
  assert (forall old new s,
             old <> "" -> Str.contains old s = false ->
             Str.replace old new s = s) as Hreplace.
  { intros old new s Hold. destruct old as [|a old]; [done|]. clear Hold.
    unfold Str.replace.
    induction s as [|c s IH]; intros Hc; [done|].
    cbn [Str.contains] in Hc. apply orb_false_iff in Hc as [Hp Hc].
    cbn [Str.replace_from]. rewrite Hp. by rewrite IH. }
  unfold template_placeholders in Habsent.
  repeat match goal with
         | H : Forall _ (_ :: _) |- _ =>
             apply Forall_cons in H as [? H]
         end.
  unfold LiberoTcl.create_template. cbv zeta.
  rewrite (Hreplace "__project__") by done.
  rewrite (Hreplace "__part__") by done.
  rewrite (Hreplace "__family__") by done.
  rewrite (Hreplace "__device__") by done.
  rewrite (Hreplace "__package__") by done.
  rewrite (Hreplace "__speed__") by done.
  rewrite (Hreplace "__temp_range__") by done.
  rewrite (Hreplace "__top__") by done.
  rewrite (Hreplace "__destination__") by done.
  by rewrite (Hreplace "__fpga_files__") by done.
Qed.
End TopFirst.

Lemma top_file_registered_first_witness :
  exists rest,
    LiberoTcl.create_fpga_files (H:=Examples.platform) Examples.project_path
      [Examples.math_module; Examples.top_module] "top_artyz7"
      (Some [Examples.pins_pdc]) []
    = Ok (("fpga_file {../../work/top/top_artyz7.vhd}" +:+ nl) +:+ rest).
Proof.
  exact (top_file_registered_first (H:=Examples.platform)
           Examples.project_path [Examples.math_module; Examples.top_module]
           "top_artyz7" [Examples.pins_pdc] [] Examples.top_module []
           {| HdlFile.path := ["work"; "top"; "top_artyz7.vhd"] |} []
           eq_refl eq_refl).
Defined.

Lemma template_without_placeholders_witness :
  LiberoTcl.create_template (H:=Examples.fixed_platform)
    {| LiberoTcl.name := "artyz7" |} Examples.project_path "M2S010-1-VF400"
    "SmartFusion2" "top_artyz7" "M2S010" "VF400" "1" "COM"
    ("fpga_file {../../work/top/top_artyz7.vhd}" +:+ nl)
  = "open_project -file {artyz7.prjx}" +:+ nl.
Proof.
  apply (template_without_placeholders (H:=Examples.fixed_platform)).
  repeat constructor.
Defined.

(** ** The file system after [create] *)

Lemma mkdir_from_ok (rest : list string) (prefix : Path) (fs fs' : FS) :
  Fs.mkdir_from prefix rest fs = (Ok (), fs') ->
  rest <> []
  /\ fs' !! (prefix ++ rest) = Some Dir
  /\ fs ⊆ fs'.
Proof.
  revert prefix fs. induction rest as [|c rest IH]; intros prefix fs Hmk.
  - simpl in Hmk. by simplify_eq.
  - split; [done|]. cbn [Fs.mkdir_from] in Hmk. destruct rest as [|c' rest].
    + destruct (fs !! (prefix ++ [c])) eqn:E; simplify_eq.
      split; [apply lookup_insert_eq | by apply insert_subseteq].
    + replace (prefix ++ c :: c' :: rest)
        with ((prefix ++ [c]) ++ c' :: rest) by by rewrite <- app_assoc.
      destruct (fs !! (prefix ++ [c])) as [[|contents]|] eqn:E.
      * apply IH in Hmk as (_ & Hdir & Hsub). done.
      * by simplify_eq.
      * apply IH in Hmk as (_ & Hdir & Hsub). split; [done|].
        etrans; [|exact Hsub]. by apply insert_subseteq.
Qed.

Lemma mkdir_parents_ok (p : Path) (fs fs' : FS) :
  Fs.mkdir_parents p fs = (Ok (), fs') ->
  p <> [] /\ fs !! p = None /\ fs' !! p = Some Dir /\ fs ⊆ fs'.
Proof.
  unfold Fs.mkdir_parents. destruct (fs !! p) eqn:E; intros Hmk.
  - by simplify_eq.
  - apply mkdir_from_ok in Hmk as (Hne & Hdir & Hsub). done.
Qed.

Lemma script_path_fresh (p : Path) (child : string) :
  PurePath.joinpath p child <> p.
Proof.
  unfold PurePath.joinpath. intros Heq.
  apply (f_equal length) in Heq. rewrite length_app in Heq. simpl in Heq. lia.
Qed.

Section AfterCreate.
Context `{Platform}.

(** What a call of [_create_tcl] that returns has done. *)
Lemma create_tcl_returns (self : LiberoProject.t) (project_path : Path)
    (ip_cache_path : option Path) (all_arguments : option kwargs)
    (fs fs' : FS) (returned : Path) :
  LiberoProject._create_tcl self project_path ip_cache_path all_arguments fs
  = (Ok returned, fs') ->
  exists fs2 text,
    returned = PurePath.joinpath project_path "create_libero_project.tcl"
    /\ Fs.exists_ project_path fs = (Ok false, fs)
    /\ Fs.mkdir_parents project_path fs = (Ok (), fs2)
    /\ LiberoTcl.create (LiberoProject.tcl self) project_path
         (LiberoProject.modules self) (LiberoProject.part self)
         (LiberoProject.family self) (LiberoProject.top self)
         (LiberoProject.default_run_index self)
         (Some (LiberoProject.static_generics self))
         (Some (LiberoProject.constraints self))
         (Some (LiberoProject.tcl_sources self))
         (Some (LiberoProject.build_step_hooks self)) ip_cache_path
         (LiberoProject.is_netlist_build self)
         (LiberoProject.ip_cores_only self) all_arguments
       = Ok text
    /\ fs' = <[returned := File text]> fs2.
Proof.
  unfold LiberoProject._create_tcl, bind, lift, raise, ret.
  unfold Fs.exists_ at 1.
  set (present := match project_path with
                  | [] => true
                  | _ => bool_decide (is_Some (fs !! project_path))
                  end).
  assert (Fs.exists_ project_path fs = (Ok present, fs)) as Hexists
    by reflexivity.
  destruct present; [intros; simplify_eq|].
  destruct (Fs.mkdir_parents project_path fs) as [[[]|e] fs2] eqn:Hmkdir;
    [|intros; simplify_eq].
  destruct (LiberoTcl.create _ _ _ _ _ _ _ _ _ _ _ _ _ _ _) as [text|e] eqn:Htext;
    [|intros; simplify_eq].
  unfold Fs.create_file. intros [= <- <-].
  by exists fs2, text.
Qed.

(** A [create] call whose hook has accepted, on a free project path that
    can be made and with a part of at least three segments, returns
    [True]; afterwards the project path is a directory, the file
    [create_libero_project.tcl] in it holds the text of
    [LiberoTcl.create], and every other regular file is as the hook
    left it. *)
Theorem create_writes_script (self : LiberoProject.t) (project_path : Path)
    (ip_cache_path : option Path) (other_arguments args : kwargs)
    (fs fs1 fs2 : FS)
    (Hargs : LiberoProject.create_all_arguments self other_arguments
             = Ok args)
    (Hhook : LiberoProject.call_pre_create self project_path ip_cache_path
               args fs = (Ok true, fs1))
    (Hfree : Fs.exists_ project_path fs1 = (Ok false, fs1))
    (Hmkdir : Fs.mkdir_parents project_path fs1 = (Ok (), fs2))
    (Hpart : 3 <= length (Str.split "-" (LiberoProject.part self))) :
  let script := PurePath.joinpath project_path "create_libero_project.tcl" in
  exists text fs3,
    LiberoTcl.create (LiberoProject.tcl self) project_path
      (LiberoProject.modules self) (LiberoProject.part self)
      (LiberoProject.family self) (LiberoProject.top self)
      (LiberoProject.default_run_index self)
      (Some (LiberoProject.static_generics self))
      (Some (LiberoProject.constraints self))
      (Some (LiberoProject.tcl_sources self))
      (Some (LiberoProject.build_step_hooks self)) ip_cache_path
      (LiberoProject.is_netlist_build self)
      (LiberoProject.ip_cores_only self) (Some args)
    = Ok text
    /\ LiberoProject.create self project_path ip_cache_path other_arguments fs
       = (Ok true, fs3)
    /\ fs3 !! project_path = Some Dir
    /\ fs3 !! script = Some (File text)
    /\ Fs.files fs3 = <[script := text]> (Fs.files fs1).
Proof.
  intros script.
  destruct (create_part_ok _ Hpart) as [segments Hsegments].
  pose proof (mkdir_parents_ok _ _ _ Hmkdir) as (Hne & Hnone & Hdir & Hsub).
  eexists _, (<[script := File _]> fs2).
  split.
  { unfold LiberoTcl.create. rewrite Hsegments. simpl.
    rewrite create_fpga_files_text. reflexivity. }
  split.
  { unfold LiberoProject.create, bind, lift. rewrite Hargs, Hhook.
    unfold LiberoProject._create_tcl, bind, lift, ret, Fs.create_file.
    rewrite Hfree, Hmkdir.
    unfold LiberoTcl.create. rewrite Hsegments. simpl.
    rewrite create_fpga_files_text. reflexivity. }
  split.
  { rewrite lookup_insert_ne by apply script_path_fresh. exact Hdir. }
  split; [apply lookup_insert_eq|].
  unfold Fs.files. erewrite omap_insert_Some by reflexivity.
  f_equal. by eapply mkdir_parents_files.
Qed.

(** Directory safety.  With a hook that accepts and changes nothing, as the
    one of the class itself, a [create] call that has returned [True]
    cannot be repeated on the same project path: the second call raises
    the [ValueError] and leaves the file system, with the script of the
    first call, as it is. *)
Theorem create_twice (self : LiberoProject.t) (project_path : Path)
    (ip_cache_path : option Path) (other_arguments args : kwargs)
    (fs fs' : FS)
    (Hargs : LiberoProject.create_all_arguments self other_arguments
             = Ok args)
    (Hhook : forall fs0,
        LiberoProject.call_pre_create self project_path ip_cache_path args fs0
        = (Ok true, fs0))
    (Hfirst : LiberoProject.create self project_path ip_cache_path
                other_arguments fs = (Ok true, fs')) :
  LiberoProject.create self project_path ip_cache_path other_arguments fs'
  = (Raise (ValueError ("Folder already exists: "
                          +:+ PurePath.str project_path)), fs')
  /\ exists text,
       fs' !! PurePath.joinpath project_path "create_libero_project.tcl"
       = Some (File text).
Proof.
  unfold LiberoProject.create, bind, lift in Hfirst.
  rewrite Hargs, Hhook in Hfirst.
  destruct (LiberoProject._create_tcl self project_path ip_cache_path
              (Some args) fs) as [[returned|e] fs3] eqn:Htcl;
    [|discriminate].
  unfold ret in Hfirst. injection Hfirst as ->.
  apply create_tcl_returns in Htcl
    as (fs2 & text & -> & _ & Hmkdir & _ & ->).
  apply mkdir_parents_ok in Hmkdir as (Hne & _ & Hdir & _).
  split; [|exists text; apply lookup_insert_eq].
  set (fs' := <[_ := File text]> fs2).
  assert (Fs.exists_ project_path fs' = (Ok true, fs')) as Hexists.
  { unfold Fs.exists_. destruct project_path as [|c p]; [done|].
    rewrite bool_decide_eq_true_2; [done|].
    exists Dir. unfold fs'.
    rewrite lookup_insert_ne by apply script_path_fresh. exact Hdir. }
  unfold LiberoProject.create, bind, lift. rewrite Hargs, Hhook.
  unfold LiberoProject._create_tcl, bind. by rewrite Hexists.
Qed.

(** An object of the class itself, whose hook is [pre_create] as the class
    defines it, is never declined: [create] returns [True] or raises. *)
Theorem create_base_never_declines (self : LiberoProject.t)
    (project_path : Path) (ip_cache_path : option Path)
    (other_arguments : kwargs) (fs : FS)
    (Hbase : LiberoProject.pre_create self = LiberoProject.base_pre_create) :
  fst (LiberoProject.create self project_path ip_cache_path other_arguments fs)
  <> Ok false.
Proof.
  unfold LiberoProject.create, bind, lift.
  destruct (LiberoProject.create_all_arguments self other_arguments)
    as [args|e]; [|done].
  unfold LiberoProject.call_pre_create. rewrite Hbase.
  destruct (_ || _); [done|].
  unfold LiberoProject.base_pre_create, ret.
  by destruct (LiberoProject._create_tcl self project_path ip_cache_path
                 (Some args) fs) as [[returned|e] fs3].
Qed.
End AfterCreate.

Lemma create_writes_script_witness :
  exists text fs3,
    LiberoProject.create (H:=Examples.platform)
      (Examples.project "M2S010-1-VF400" [Examples.pins_pdc])
      Examples.project_path None [] ∅
    = (Ok true, fs3)
    /\ fs3 !! Examples.project_path = Some Dir
    /\ fs3 !! Examples.script_path = Some (File text)
    /\ Fs.files fs3 = {[ Examples.script_path := text ]}.
Proof.
  assert (Fs.exists_ Examples.project_path ∅ = (Ok false, ∅)) as Hfree
    by (vm_compute; reflexivity).
  assert (Fs.mkdir_parents Examples.project_path ∅
          = (Ok (),
             <[Examples.project_path := Dir]> (<[["build"] := Dir]> ∅)))
    as Hmkdir by (vm_compute; reflexivity).
  assert (3 <= length (Str.split "-" "M2S010-1-VF400")) as Hpart
    by (vm_compute; lia).
  destruct (create_writes_script (H:=Examples.platform)
              (Examples.project "M2S010-1-VF400" [Examples.pins_pdc])
              Examples.project_path None []
              [("generics", PyGenerics []);
               ("part", PyValue (GStr "M2S010-1-VF400"))]
              ∅ ∅ _ eq_refl eq_refl Hfree Hmkdir Hpart)
    as (text & fs3 & _ & Hcreate & Hdir & Hscript & Hfiles).
  exists text, fs3. repeat split; done.
Defined.

Lemma create_twice_witness :
  let first :=
    LiberoProject.create (H:=Examples.platform)
      (Examples.project "M2S010-1-VF400" [Examples.pins_pdc])
      Examples.project_path None [] ∅ in
  fst first = Ok true
  /\ LiberoProject.create (H:=Examples.platform)
       (Examples.project "M2S010-1-VF400" [Examples.pins_pdc])
       Examples.project_path None [] (snd first)
     = (Raise (ValueError "Folder already exists: /build/artyz7"), snd first).
Proof.
  intros first.
  assert (first = (Ok true, snd first)) as Hfirst
    by (vm_compute; reflexivity).
  split; [by rewrite Hfirst|].
  refine (proj1 (create_twice (H:=Examples.platform)
                   (Examples.project "M2S010-1-VF400" [Examples.pins_pdc])
                   Examples.project_path None []
                   [("generics", PyGenerics []);
                    ("part", PyValue (GStr "M2S010-1-VF400"))]
                   ∅ (snd first) eq_refl _ Hfirst)).
  intros fs0. reflexivity.
Defined.

Lemma create_base_never_declines_witness :
  fst (LiberoProject.create (H:=Examples.platform)
         (Examples.project "xc7z020clg400-1" []) Examples.project_path None
         [] Examples.built)
  <> Ok false.
Proof.
  exact (create_base_never_declines (H:=Examples.platform)
           (Examples.project "xc7z020clg400-1" []) Examples.project_path None
           [] Examples.built eq_refl).
Defined.

(** ** Names and paths *)

Lemma length_append (s t : string) :
  String.length (s +:+ t) = String.length s + String.length t.
Proof. induction s as [|c s IH]; [done|]. rewrite append_cons. simpl. lia. Qed.

Lemma substring_all (s : string) : String.substring 0 (String.length s) s = s.
Proof. induction s as [|c s IH]; simpl; congruence. Qed.

Lemma substring_append_l (s t : string) :
  String.substring 0 (String.length s) (s +:+ t) = s.
Proof.
  induction s as [|c s IH].
  - simpl. by destruct t.
  - rewrite append_cons. simpl. by rewrite IH.
Qed.

Lemma substring_append_r (s t : string) :
  String.substring (String.length s) (String.length t) (s +:+ t) = t.
Proof.
  induction s as [|c s IH].
  - simpl. apply substring_all.
  - rewrite append_cons. simpl. exact IH.
Qed.

Lemma append_inj_l (s1 s2 t : string) : s1 +:+ t = s2 +:+ t -> s1 = s2.
Proof.
  intros Heq.
  assert (String.length s1 = String.length s2) as Hlen.
  { apply (f_equal String.length) in Heq. rewrite !length_append in Heq. lia. }
  rewrite <- (substring_append_l s1 t), <- (substring_append_l s2 t).
  by rewrite Heq, Hlen.
Qed.

(** A name is its stem followed by its suffix. *)
Lemma substring_split (i : nat) (s : string) :
  i <= String.length s ->
  String.substring 0 i s +:+ String.substring i (String.length s - i) s = s.
Proof.
  revert i. induction s as [|c s IH]; intros i Hi.
  - simpl in Hi. by replace i with 0 by lia.
  - destruct i as [|i].
    + simpl. by rewrite substring_all.
    + simpl in *. rewrite append_cons. f_equal. apply IH. lia.
Qed.

Lemma rfind_bound (c : ascii) (s : string) (i : nat) :
  Str.rfind c s = Some i -> i < String.length s.
Proof.
  revert i. induction s as [|a s IH]; intros i; simpl; [done|].
  destruct (Str.rfind c s) as [j|].
  - intros [= <-]. specialize (IH j eq_refl). lia.
  - destruct (Ascii.eqb a c); intros [= <-]. lia.
Qed.

Lemma stem_suffix_name (p : Path) :
  PurePath.stem p +:+ PurePath.suffix p = PurePath.name p.
Proof.
  unfold PurePath.stem, PurePath.suffix, PurePath.suffix_start.
  destruct (Str.rfind "." (PurePath.name p)) as [i|] eqn:E;
    [|by rewrite append_nil_r].
  destruct (_ && _); [|by rewrite append_nil_r].
  apply substring_split. apply rfind_bound in E. lia.
Qed.

(** A source file has the key of the top file in [create] exactly when
    its name is [top] followed by its suffix: [top.vhd] or [top.v], and
    also [top] alone, but not [top.pkg.vhd]. *)
Theorem top_file_key (top : string) (hdl_file : HdlFile.t) :
  PurePath.stem (HdlFile.path hdl_file) = top
  <-> PurePath.name (HdlFile.path hdl_file)
      = top +:+ PurePath.suffix (HdlFile.path hdl_file).
Proof.
  pose proof (stem_suffix_name (HdlFile.path hdl_file)) as Hname.
  split.
  - intros Hstem. by rewrite <- Hname, Hstem.
  - intros Htop. rewrite <- Hname in Htop. by apply append_inj_l in Htop.
Qed.

Lemma rfind_append_none (c : ascii) (s t : string) :
  Str.rfind c s = None -> Str.rfind c t = None ->
  Str.rfind c (s +:+ t) = None.
Proof.
  intros Hs Ht. induction s as [|a s IH]; [done|].
  rewrite append_cons. simpl in *.
  destruct (Str.rfind c s); [done|].
  rewrite IH by done. by destruct (Ascii.eqb a c).
Qed.

Lemma rfind_append_some (c : ascii) (s t : string) (i : nat) :
  Str.rfind c t = Some i ->
  Str.rfind c (s +:+ t) = Some (String.length s + i).
Proof.
  intros Ht. induction s as [|a s IH]; [done|].
  rewrite append_cons. simpl. by rewrite IH.
Qed.

Lemma split_no_occurrence (sep : ascii) (s : string) :
  Str.rfind sep s = None -> Str.split sep s = [s].
Proof.
  induction s as [|a s IH]; [done|]. simpl.
  destruct (Str.rfind sep s); [done|].
  destruct (Ascii.eqb a sep); [done|]. intros _. by rewrite IH.
Qed.

Lemma prefix_no_occurrence (sep : ascii) (s : string) :
  Str.rfind sep s = None -> String.prefix (String sep "") s = false.
Proof.
  destruct s as [|a s]; [done|]. simpl.
  destruct (Str.rfind sep s); [done|].
  destruct (Ascii.eqb_spec a sep) as [->|Hne]; [done|]. intros _.
  destruct (ascii_dec sep a) as [->|]; [done | done].
Qed.

(** For a project name that is not empty and holds no slash, the project
    file lies directly in the project path, its name is the project name
    followed by [.xpr], its suffix is [.xpr] and its stem is the project
    name. *)
Theorem project_file_name (self : LiberoProject.t) (project_path : Path)
    (Hname : LiberoProject.name self <> "")
    (Hslash : Str.rfind "/" (LiberoProject.name self) = None) :
  LiberoProject.project_file self project_path
  = project_path ++ [LiberoProject.name self +:+ ".xpr"]
  /\ PurePath.parent (LiberoProject.project_file self project_path)
     = project_path
  /\ PurePath.suffix (LiberoProject.project_file self project_path) = ".xpr"
  /\ PurePath.stem (LiberoProject.project_file self project_path)
     = LiberoProject.name self.
Proof.
  set (name := LiberoProject.name self) in *.
  assert (Str.rfind "/" (name +:+ ".xpr") = None) as Hfile
    by by apply rfind_append_none.
  assert (String.length (name +:+ ".xpr") = String.length name + 4) as Hlen
    by apply length_append.
  assert (LiberoProject.project_file self project_path
          = project_path ++ [name +:+ ".xpr"]) as Hpath.
  { unfold LiberoProject.project_file, PurePath.truediv, PurePath.parse.
    fold name. rewrite (prefix_no_occurrence "/") by done.
    rewrite split_no_occurrence by done. simpl.
    destruct (String.eqb_spec (name +:+ ".xpr") "") as [E|_].
    { rewrite E in Hlen. simpl in Hlen. lia. }
    destruct (String.eqb_spec (name +:+ ".xpr") ".") as [E|_].
    { rewrite E in Hlen. simpl in Hlen. lia. }
    done. }
  assert (0 < String.length name) as Hpos.
  { destruct name; [done | simpl; lia]. }
  assert (PurePath.suffix_start (name +:+ ".xpr") = Some (String.length name))
    as Hstart.
  { unfold PurePath.suffix_start.
    rewrite (rfind_append_some "." name ".xpr" 0) by done.
    rewrite Nat.add_0_r, Hlen.
    destruct (Nat.ltb_spec 0 (String.length name)); [|lia].
    destruct (Nat.ltb_spec (String.length name) (String.length name + 4 - 1));
      [done | lia]. }
  rewrite Hpath. split; [done|].
  split; [apply removelast_last|].
  unfold PurePath.suffix, PurePath.stem, PurePath.name.
  rewrite last_last, Hstart, Hlen.
  split.
  - replace (String.length name + 4 - String.length name)
      with (String.length ".xpr") by (simpl; lia).
    apply substring_append_r.
  - apply substring_append_l.
Qed.

Lemma project_file_name_witness :
  LiberoProject.project_file (Examples.project "M2S010-1-VF400" [])
    Examples.project_path
  = ["build"; "artyz7"; "artyz7.xpr"].
Proof.
  refine (proj1 (project_file_name (Examples.project "M2S010-1-VF400" [])
                   Examples.project_path _ _)).
  - discriminate.
  - reflexivity.
Defined.

(** ** The path resolvers *)

Lemma prefix_append (s t : string) : String.prefix s (s +:+ t) = true.
Proof.
  induction s as [|c s IH]; [by destruct t|].
  rewrite append_cons. simpl. by destruct (ascii_dec c c).
Qed.

(** The path of [common.py] begins with the cygwin root, [C:\cygwin64]
    when none is given, and what follows the root is the resolved path as
    a string: dropping the root gives it back. *)
Theorem common_to_tcl_path_root `{Platform} (path : Path)
    (cygwin_root : option string) :
  let root := default "C:\cygwin64" cygwin_root in
  let result := Common.to_tcl_path path cygwin_root in
  String.prefix root result = true
  /\ String.substring (String.length root)
       (String.length result - String.length root) result
     = PurePath.str (resolve path)
  /\ String.prefix "/" (PurePath.str (resolve path)) = true.
Proof.
  intros root result. unfold result, Common.to_tcl_path. fold root.
  split; [apply prefix_append|]. split; [|apply (prefix_append "/")].
  rewrite length_append.
  replace (String.length root + String.length (PurePath.str (resolve path))
           - String.length root)
    with (String.length (PurePath.str (resolve path))) by lia.
  apply substring_append_r.
Qed.

Lemma follow_app (start : Path) (rel1 rel2 : list string) :
  PurePath.follow start (rel1 ++ rel2)
  = PurePath.follow (PurePath.follow start rel1) rel2.
Proof. apply fold_left_app. Qed.

Lemma follow_up (pre l : Path) :
  PurePath.follow (pre ++ l) (replicate (length l) "..") = pre.
Proof.
  induction l as [|x l IH] using rev_ind.
  - simpl. by rewrite app_nil_r.
  - rewrite length_app. simpl. rewrite Nat.add_1_r. cbn [replicate].
    unfold PurePath.follow in *. cbn [fold_left]. simpl String.eqb.
    rewrite app_assoc, removelast_last. exact IH.
Qed.

Lemma follow_down (start : Path) (rel : list string) :
  Forall (fun c => c <> "..") rel ->
  PurePath.follow start rel = start ++ rel.
Proof.
  intros Hrel. revert start.
  induction Hrel as [|c rel Hc _ IH]; intros start.
  - by rewrite app_nil_r.
  - unfold PurePath.follow in *. cbn [fold_left].
    destruct (String.eqb_spec c ".."); [done|].
    by rewrite IH, <- app_assoc.
Qed.

(** The relative path leads from the start to the path. *)
Lemma relpath_list_follow (path start pre : Path) :
  Forall (fun c => c <> "..") path ->
  PurePath.follow (pre ++ start) (relpath_list path start) = pre ++ path.
Proof.
  intros Hpath. revert start pre.
  induction Hpath as [|a path Ha Hpath IH]; intros start pre.
  - replace (relpath_list [] start) with (replicate (length start) "..")
      by (destruct start; cbn [relpath_list]; by rewrite app_nil_r).
    rewrite app_nil_r. apply follow_up.
  - destruct start as [|b start].
    + cbn [relpath_list length replicate app]. rewrite app_nil_r.
      apply follow_down. by constructor.
    + cbn [relpath_list]. destruct (String.eqb_spec a b) as [->|Hne].
      * replace (pre ++ b :: start) with ((pre ++ [b]) ++ start)
          by by rewrite <- app_assoc.
        rewrite IH. by rewrite <- app_assoc.
      * rewrite follow_app, follow_up. apply follow_down. by constructor.
Qed.

Lemma relpath_list_Forall (Q : string -> Prop) (path start : Path) :
  Q ".." -> Forall Q path -> Forall Q (relpath_list path start).
Proof.
  intros Hup Hpath. revert start.
  induction Hpath as [|a path Ha Hpath IH]; intros start.
  - replace (relpath_list [] start) with (replicate (length start) "..")
      by (destruct start; cbn [relpath_list]; by rewrite app_nil_r).
    by apply Forall_replicate.
  - destruct start as [|b start]; cbn [relpath_list].
    + cbn [length replicate app]. by constructor.
    + destruct (String.eqb a b); [apply IH|].
      apply Forall_app. split; [by apply Forall_replicate | by constructor].
Qed.

Lemma split_append_sep (sep : ascii) (s rest : string) :
  Str.rfind sep s = None ->
  Str.split sep (s +:+ String sep rest) = s :: Str.split sep rest.
Proof.
  induction s as [|a s IH]; intros Hs.
  - simpl. by rewrite Ascii.eqb_refl.
  - rewrite append_cons. simpl in *.
    destruct (Str.rfind sep s); [done|].
    destruct (Ascii.eqb a sep); [done|]. by rewrite IH.
Qed.

(** Splitting what was joined gives the components back. *)
Lemma split_join_inverse (sep : ascii) (l : list string) :
  l <> [] ->
  Forall (fun c => Str.rfind sep c = None) l ->
  Str.split sep (Str.join (String sep "") l) = l.
Proof.
  intros Hne Hl. unfold Str.join.
  induction Hl as [|x l Hx Hl IH]; [done|].
  destruct l as [|y l].
  - simpl. by apply split_no_occurrence.
  - cbn [String.concat]. rewrite append_cons, append_nil_l.
    rewrite split_append_sep by done. f_equal. by apply IH.
Qed.

(** The relative path that [to_tcl_path] of [tcl.py] writes leads from the
    project folder back to the resolved path: read as components and
    followed from the folder, a [..] going up and a name going down, it
    ends at the path.  The components of the path are names: not empty, not
    [.] or [..], without a slash. *)
Theorem to_tcl_path_leads_back `{Platform} (path project_folder : Path)
    (Hnames : Forall (fun c => Str.rfind "/" c = None /\ c <> ""
                               /\ c <> "." /\ c <> "..") (resolve path)) :
  exists text,
    to_tcl_path path (Some project_folder) = Ok text
    /\ PurePath.follow project_folder (PurePath.parse text) = resolve path.
Proof.
  eexists. split; [reflexivity|].
  assert (Forall (fun c => c <> "..") (resolve path)) as Hup.
  { eapply Forall_impl; [exact Hnames|]. by intros c (_ & _ & _ & ?). }
  pose proof (relpath_list_follow (resolve path) project_folder [] Hup)
    as Hfollow. simpl in Hfollow.
  assert (Forall (fun c => Str.rfind "/" c = None /\ c <> "" /\ c <> ".")
            (relpath_list (resolve path) project_folder)) as Hrel.
  { apply relpath_list_Forall; [done|].
    eapply Forall_impl; [exact Hnames|]. by intros c (? & ? & ? & _). }
  unfold relpath.
  destruct (relpath_list (resolve path) project_folder) as [|c rel] eqn:E.
  - exact Hfollow.
  - unfold PurePath.parse.
    rewrite (split_join_inverse "/");
      [| done | eapply Forall_impl; [exact Hrel|]; by intros ? (? & _)].
    rewrite <- Hfollow. f_equal.
    clear -Hrel. induction Hrel as [|x l (_ & Hx1 & Hx2) _ IH]; [done|].
    simpl. destruct (String.eqb_spec x ""); [done|].
    destruct (String.eqb_spec x "."); [done|]. simpl. by rewrite IH.
Qed.

Lemma to_tcl_path_leads_back_witness :
  exists text,
    to_tcl_path (H:=Examples.platform) ["work"; "tcl"; "pins.pdc"]
      (Some ["build"; "artyz7"]) = Ok text
    /\ PurePath.follow ["build"; "artyz7"] (PurePath.parse text)
       = ["work"; "tcl"; "pins.pdc"].
Proof.
  apply (to_tcl_path_leads_back (H:=Examples.platform)).
  repeat constructor; discriminate.
Defined.

(** ** The IP core files *)

(** An IP core file whose suffix is not [.cxf] leaves no trace: the
    statements of the IP core files of a module are those of its [.cxf]
    files alone. *)
Theorem only_cxf_registered `{Platform} (project_folder : Path)
    (ip_core_files : list IpCoreFile.t) (tcl : string) :
  for_each (LiberoTcl.create_ip_core_file project_folder) ip_core_files tcl
  = Ok (tcl +:+ statements
                  (fun f => "fpga_file {"
                     +:+ relpath (resolve (IpCoreFile.path f)) project_folder
                     +:+ "}" +:+ nl)
                  (filter (fun f => PurePath.suffix (IpCoreFile.path f)
                                    = ".cxf") ip_core_files)).
Proof.
  rewrite (for_each_append _ (ip_core_registration project_folder))
    by apply create_ip_core_file_appends.
  do 2 f_equal.
  induction ip_core_files as [|f l IH]; [done|].
  rewrite filter_cons. cbn [statements foldr]. unfold statements in IH.
  rewrite IH. unfold ip_core_registration at 1.
  destruct (String.eqb_spec (PurePath.suffix (IpCoreFile.path f)) ".cxf").
  - by rewrite decide_True.
  - by rewrite decide_False.
Qed.

(** ** Reserved names in the argument bag *)

Lemma dict_has_key_set {V} (k k' : string) (v : V) (d : dict V) :
  Dict.has_key k d = true -> Dict.has_key k (Dict.set k' v d) = true.
Proof.
  rewrite !dict_has_key, dict_keys_set.
  destruct (Dict.has_key k' d); [done|]. intros Hk. apply elem_of_app. by left.
Qed.

Lemma dict_has_key_update {V} (k : string) (d other : dict V) :
  Dict.has_key k d = true -> Dict.has_key k (Dict.update d other) = true.
Proof.
  unfold Dict.update. revert d.
  induction other as [|[k1 v1] other IH]; intros d Hk; simpl; [done|].
  apply IH. by apply dict_has_key_set.
Qed.

(** An object constructed with a further argument named [project_path] or
    [ip_cache_path] cannot be created: the call of the hook passes the
    name twice, so every [create] raises [TypeError] before the hook runs
    and before the file system is touched. *)
Theorem create_reserved_argument `{Platform} (self : LiberoProject.t)
    (constructed : kwargs) (project_path : Path)
    (ip_cache_path : option Path) (other_arguments : kwargs) (fs : FS)
    (Hconstructed : LiberoProject.other_arguments self = Some constructed)
    (Hreserved : Dict.has_key "project_path" constructed = true
                 \/ Dict.has_key "ip_cache_path" constructed = true) :
  LiberoProject.create self project_path ip_cache_path other_arguments fs
  = (Raise (TypeError "got multiple values for keyword argument"), fs).
Proof.
  set (args := Dict.update (Dict.update constructed other_arguments)
                 [("generics",
                   PyGenerics (LiberoProject.static_generics self));
                  ("part", PyValue (GStr (LiberoProject.part self)))]).
  assert (LiberoProject.create_all_arguments self other_arguments = Ok args)
    as Hargs.
  { unfold LiberoProject.create_all_arguments. by rewrite Hconstructed. }
  assert (Dict.has_key "project_path" args
          || Dict.has_key "ip_cache_path" args = true) as Hkey.
  { apply orb_true_iff.
    destruct Hreserved as [Hk|Hk]; [left | right];
      by do 2 apply dict_has_key_update. }
  unfold LiberoProject.create, bind, lift. rewrite Hargs.
  unfold LiberoProject.call_pre_create. by rewrite Hkey.
Qed.

Lemma create_reserved_argument_witness :
  LiberoProject.create (H:=Examples.platform)
    (LiberoProject.__init__ "artyz7" [] "M2S010-1-VF400" "SmartFusion2" None
       None None None None None 1%Z None
       [("ip_cache_path", PyValue (GStr "/cache"))])
    Examples.project_path None [] ∅
  = (Raise (TypeError "got multiple values for keyword argument"), ∅).
Proof.
  apply (create_reserved_argument (H:=Examples.platform) _
           [("ip_cache_path", PyValue (GStr "/cache"))]).
  - reflexivity.
  - right. reflexivity.
Defined.
